(** * check_proxy_connectivity.py: connectivity watchdog for OpenClash

    A shallow embedding of [src/check_proxy_connectivity.py].  The script
    talks to the outside world through three calls only: [requests.get],
    [time.sleep] and [log_message] (a timestamped [print]).  They are
    modelled as events emitted by a small reader/counter/writer monad; the
    answers of the network are given by an oracle indexed by the number of
    requests issued so far.  Standard output is taken to encode UTF-8, so
    that the fixed lines of the script print; what it does with a lone
    surrogate depends on its error handler, which the world around the
    script fixes. *)

From Stdlib Require Import ZArith Bool Lia.
From Stdlib.Floats Require Import SpecFloat.
From stdpp Require Import base list strings gmap.

Local Open Scope Z_scope.

(** ** Values decoded by [response.json()] *)

Module Py.

(** What [json.loads] can return.  A Python [float] is kept as an IEEE
    value ([spec_float]); a [dict] is a finite map keyed by strings.  A
    [str] is kept as its UTF-8 bytes; a lone surrogate, which [json.loads]
    accepts (["\ud800"]) and UTF-8 proper excludes, is kept as the three
    bytes its code point would take ([ED A0..BF 80..BF], what the
    [surrogatepass] handler writes). *)
#[warnings="-register-all"] Inductive value : Type :=
| VNone
| VBool (b : bool)
| VInt (z : Z)
| VFloat (f : spec_float)
| VStr (s : string)
| VList (l : list value)
| VDict (d : gmap string value).

(** The literals written in the source list
    [[True, 'running', 'active', 'enabled', 'up', 1]]. *)
Inductive literal : Type :=
| LBool (b : bool)
| LInt (z : Z)
| LStr (s : string).

(** [int(b)]: [bool] is a subclass of [int] in Python. *)
Definition int_of_bool (b : bool) : Z := if b then 1 else 0.

(** [f == z] for a float [f] and an integer [z]: Python compares the exact
    mathematical values; infinities and NaN equal no integer. *)
Definition float_eq_int (f : spec_float) (z : Z) : bool :=
  match f with
  | S754_zero _ => z =? 0
  | S754_infinity _ => false
  | S754_nan => false
  | S754_finite s m e =>
      let v := if s then Z.neg m else Z.pos m in
      if 0 <=? e then v * 2 ^ e =? z else v =? z * 2 ^ (- e)
  end.

(** [v == l], Python's equality of a decoded value with a literal. *)
Definition eq_literal (v : value) (l : literal) : bool :=
  match v, l with
  | VBool b, LBool b' => Bool.eqb b b'
  | VBool b, LInt z => int_of_bool b =? z
  | VInt z, LBool b => z =? int_of_bool b
  | VInt z, LInt z' => z =? z'
  | VFloat f, LBool b => float_eq_int f (int_of_bool b)
  | VFloat f, LInt z => float_eq_int f z
  | VStr s, LStr s' => String.eqb s s'
  | _, _ => false
  end.

(** [v in ls] for a list of literals: some element compares equal. *)
Definition contains (ls : list literal) (v : value) : bool :=
  existsb (eq_literal v) ls.

(** The lone surrogates of a [str], each given by the second of its three
    bytes: the byte [ED] followed by a byte from [A0] to [BF]. *)
Fixpoint surrogates (s : string) : list N :=
  match s with
  | EmptyString => []
  | String c s' =>
      match s' with
      | EmptyString => []
      | String d _ =>
          if ((Ascii.N_of_ascii c =? 237) && (160 <=? Ascii.N_of_ascii d)
              && (Ascii.N_of_ascii d <=? 191))%N
          then Ascii.N_of_ascii d :: surrogates s'
          else surrogates s'
      end
  end.

(** The error handler of a text stream that encodes UTF-8: [strict] (the
    default of [sys.stdout]), [surrogateescape] (the default of
    [sys.stdout] under the C locale), or one that never raises ([replace],
    [ignore], [backslashreplace], [surrogatepass], ...). *)
Inductive error_handler : Type :=
| Strict
| SurrogateEscape
| Lenient.

(** Whether the handler lets a lone surrogate through.  [surrogateescape]
    writes U+DC80 to U+DCFF, whose second byte is [B2] or [B3], as one
    byte each. *)
Definition tolerates (h : error_handler) (second_byte : N) : bool :=
  match h with
  | Strict => false
  | SurrogateEscape => ((second_byte =? 178) || (second_byte =? 179))%N
  | Lenient => true
  end.

(** Whether a UTF-8 stream with handler [h] encodes [s]; when not, writing
    [s] raises [UnicodeEncodeError]. *)
Definition encodable (h : error_handler) (s : string) : bool :=
  forallb (tolerates h) (surrogates s).

(** Whether [print(f"... {v}")] goes through.  A [str] is shown as it is;
    any other value is shown by its [repr], in which the strings it holds
    have their lone surrogates escaped. *)
Definition printable (h : error_handler) (v : value) : bool :=
  match v with
  | VStr s => encodable h s
  | _ => true
  end.

(** The [str] made of the lone surrogate U+D800 (["\ud800"] in JSON). *)
Definition lone_surrogate : string :=
  String (Ascii.ascii_of_N 237)
    (String (Ascii.ascii_of_N 160)
       (String (Ascii.ascii_of_N 128) EmptyString)).

(** [isinstance(v, dict)]. *)
Definition is_dict (v : value) : bool :=
  match v with VDict _ => true | _ => false end.

(** [range(a, b)]. *)
Definition range (a b : Z) : list Z :=
  map (fun i : nat => a + Z.of_nat i) (seq 0 (Z.to_nat (b - a))).

End Py.

(** ** The [requests] library as the script sees it *)

Module Requests.

(** The exceptions [requests.get] raises, all of them subclasses of
    [RequestException].  [ConnectTimeout] derives from both
    [ConnectionError] and [Timeout]; which handler catches it depends on the
    order of the [except] clauses. *)
Inductive exception : Type :=
| ConnectTimeout
| ReadTimeout
| ConnectionError
| OtherRequestException.

Definition isinstance_Timeout (e : exception) : bool :=
  match e with ConnectTimeout | ReadTimeout => true | _ => false end.

Definition isinstance_ConnectionError (e : exception) : bool :=
  match e with ConnectTimeout | ConnectionError => true | _ => false end.

(** A response: its [status_code] and what [response.json()] gives, [None]
    standing for the [ValueError] raised on a body that is not JSON. *)
Record response : Type := Response {
  status_code : Z;
  json : option Py.value
}.

(** The outcome of one [requests.get]. *)
Inductive outcome : Type :=
| Returns (r : response)
| Raises (e : exception).

End Requests.

Import Requests.

(** ** Configuration constants *)

Definition GOOGLE_URL : string := "https://www.google.com"%string.
Definition OPENCLASH_STATUS_URL : string :=
  "http://192.168.100.2:3789/api/v1.0/clash/status"%string.
Definition OPENCLASH_DOWN_URL : string :=
  "http://192.168.100.2:3789/api/v1.0/clash/down"%string.
Definition OPENCLASH_UP_URL : string :=
  "http://192.168.100.2:3789/api/v1.0/clash/up"%string.

Definition TIMEOUT : Z := 10.
Definition MAX_RETRIES : Z := 3.
Definition RETRY_INTERVAL : Z := 30.

(** ** Log lines

    One constructor per [log_message] call of the script, carrying the
    values interpolated in its f-string. *)

(** The [operation_name] argument of [execute_request]. *)
Inductive operation : Type :=
| StopService
| StartService
| StartServiceAgain.

Inductive message : Type :=
(* check_google_connectivity *)
| GoogleOk
| GoogleStatusCode (code : Z)
| GoogleUnreachable (e : exception)
(* check_openclash_status *)
| StatusRunning
| StatusNotRunning (status_value : Py.value)
| StatusAssumedRunning
| StatusResponded
| StatusFailedCode (code : Z)
| StatusConnectionError
| StatusTimeout
| StatusException (e : exception)
(* start_openclash *)
| Starting
| StartRequestSent
| StartWaiting
| StartFailedCode (code : Z)
| StartException (e : exception)
(* execute_request *)
| Attempt (op : operation) (attempt max_retries : Z)
| OperationOk (op : operation)
| OperationFailedCode (op : operation) (code : Z)
| RetryIn3
| RetryIn5
| OperationTimeout (op : operation)
| OperationConnectionError (op : operation)
| OperationException (op : operation) (e : exception)
| OperationGaveUp (op : operation) (max_retries : Z)
(* restart_openclash *)
| RestartBegin
| RestartStep1Stop
| RestartStopFailed
| RestartWaitStopped
| RestartStep2Start
| RestartStartFailed
| RestartStartAgain
| RestartStartAgainFailed
| RestartWaitStarted
| RestartDone
(* main *)
| MainBegin
| MainProbe (attempt max_retries : Z)
| MainGoogleGood
| MainRetryIn (seconds : Z)
| MainDiagnose
| MainNotRunning
| MainStarted
| MainRecoveredAfterStart
| MainStillDownAfterStart
| MainStartFailed
| MainRunning
| MainRestarted
| MainRecoveredAfterRestart
| MainStillDownAfterRestart
| MainFinalCheck
| MainServiceFine
| MainHintProxyConfig
| MainHintUpstream
| MainHintBlocked
| MainHintCheckLogs
| MainServiceAbnormal
| MainRestartFailed
| MainFinished.

(** ** Effects *)

(** What the script does to the world, in order. *)
Inductive event : Type :=
| Get (url : string) (timeout : Z)
| Sleep (seconds : Z)
| Log (m : message).

(** The world around a run.  The network: the outcome of the [n]-th
    request of the run (counted from 0) when it is sent to [url]; a world
    applied to [n] and [url] stands for that outcome.  The terminal: the
    error handler of [sys.stdout]. *)
Record world : Type := World {
  answers :> nat -> string -> outcome;
  stdout_errors : Py.error_handler
}.

Implicit Types net : world.

(** A computation reads the world, advances the count of requests issued
    and emits events. *)
Definition M (A : Type) : Type := world -> nat -> A * nat * list event.

#[global] Instance M_ret : MRet M := fun A a _ n => (a, n, []).

#[global] Instance M_bind : MBind M := fun A B f m net n =>
  let '(a, n1, t1) := m net n in
  let '(b, n2, t2) := f a net n1 in
  (b, n2, t1 ++ t2).

Definition requests_get (url : string) (timeout : Z) : M outcome :=
  fun net n => (net n url, S n, [Get url timeout]).

Definition time_sleep (seconds : Z) : M unit :=
  fun _ n => (tt, n, [Sleep seconds]).

(** [log_message]: prints the line with the current time in front. *)
Definition log_message (m : message) : M unit :=
  fun _ n => (tt, n, [Log m]).

(** [log_message] of a line that shows a decoded value.  When standard
    output cannot encode the value, [print] raises [UnicodeEncodeError], a
    [ValueError], before it writes anything; the answer tells whether the
    line was printed. *)
Definition log_message_showing (m : message) (shown : Py.value) : M bool :=
  fun net n =>
    if Py.printable (stdout_errors net) shown then (true, n, [Log m])
    else (false, n, []).

(** [if c: body] with no [else]. *)
Definition when (c : bool) (body : M unit) : M unit :=
  if c then body else mret tt.

(** Projections of a run. *)
Definition result {A} (r : A * nat * list event) : A := r.1.1.
Definition issued {A} (r : A * nat * list event) : nat := r.1.2.
Definition trace {A} (r : A * nat * list event) : list event := r.2.

(** ** The script *)

(** [check_google_connectivity()] *)
Definition check_google_connectivity : M bool :=
  r ← requests_get GOOGLE_URL TIMEOUT;
  match r with
  | Returns response =>
      if status_code response =? 200 then
        log_message GoogleOk;; mret true
      else
        log_message (GoogleStatusCode (status_code response));; mret false
  | Raises e =>
      log_message (GoogleUnreachable e);; mret false
  end.

(** The candidate fields of the status payload, in the order of the source
    list [status_fields]. *)
Definition status_fields : list string :=
  ["running"; "status"; "state"; "enabled"; "active"; "success"]%string.

(** The list [[True, 'running', 'active', 'enabled', 'up', 1]]. *)
Definition active_values : list Py.literal :=
  [Py.LBool true; Py.LStr "running"; Py.LStr "active"; Py.LStr "enabled";
   Py.LStr "up"; Py.LInt 1]%string.

(** The loop [for field in status_fields] of [check_openclash_status],
    followed by the two lines after it.  The answer is [Some b] when the
    code returns [b], and [None] when it raises a [ValueError]: the line
    that shows [status_value] is the one place where that can happen. *)
Fixpoint scan_status_fields (data : gmap string Py.value)
    (fields : list string) : M (option bool) :=
  match fields with
  | [] =>
      log_message StatusAssumedRunning;; mret (Some true)
  | field :: rest =>
      match data !! field with
      | Some status_value =>
          if Py.contains active_values status_value then
            log_message StatusRunning;; mret (Some true)
          else
            printed ← log_message_showing (StatusNotRunning status_value)
                        status_value;
            if printed : bool then mret (Some false) else mret None
      | None => scan_status_fields data rest
      end
  end.

(** [check_openclash_status()].  The handler [except ValueError] of the
    inner [try] serves two ways in: [response.json()] raising on a body
    that is not JSON, and the [try] body raising while it logs. *)
Definition check_openclash_status : M bool :=
  r ← requests_get OPENCLASH_STATUS_URL TIMEOUT;
  match r with
  | Returns response =>
      if status_code response =? 200 then
        match json response with
        | Some data =>
            returned ←
              match data with
              | Py.VDict d => scan_status_fields d status_fields
              | _ => log_message StatusResponded;; mret (Some true)
              end;
            match returned with
            | Some running => mret running
            | None => log_message StatusResponded;; mret true
            end
        | None =>
            log_message StatusResponded;; mret true
        end
      else
        log_message (StatusFailedCode (status_code response));; mret false
  | Raises e =>
      if isinstance_ConnectionError e then
        log_message StatusConnectionError;; mret false
      else if isinstance_Timeout e then
        log_message StatusTimeout;; mret false
      else
        log_message (StatusException e);; mret false
  end.

(** [start_openclash()] *)
Definition start_openclash : M bool :=
  log_message Starting;;
  r ← requests_get OPENCLASH_UP_URL TIMEOUT;
  match r with
  | Returns response =>
      if status_code response =? 200 then
        log_message StartRequestSent;;
        log_message StartWaiting;;
        time_sleep 15;;
        mret true
      else
        log_message (StartFailedCode (status_code response));; mret false
  | Raises e =>
      log_message (StartException e);; mret false
  end.

(** The body of [execute_request], nested in [restart_openclash]: the loop
    [for attempt in range(1, max_retries + 1)] over the attempts that are
    left, then the two lines after the loop. *)
Fixpoint execute_request_loop (url : string) (operation_name : operation)
    (max_retries : Z) (attempts : list Z) : M bool :=
  match attempts with
  | [] =>
      log_message (OperationGaveUp operation_name max_retries);; mret false
  | attempt :: rest =>
      log_message (Attempt operation_name attempt max_retries);;
      r ← requests_get url TIMEOUT;
      match r with
      | Returns response =>
          if status_code response =? 200 then
            log_message (OperationOk operation_name);; mret true
          else
            log_message
              (OperationFailedCode operation_name (status_code response));;
            when (attempt <? max_retries)
              (log_message RetryIn3;; time_sleep 3);;
            execute_request_loop url operation_name max_retries rest
      | Raises e =>
          if isinstance_Timeout e then
            log_message (OperationTimeout operation_name);;
            when (attempt <? max_retries)
              (log_message RetryIn3;; time_sleep 3);;
            execute_request_loop url operation_name max_retries rest
          else if isinstance_ConnectionError e then
            log_message (OperationConnectionError operation_name);;
            when (attempt <? max_retries)
              (log_message RetryIn5;; time_sleep 5);;
            execute_request_loop url operation_name max_retries rest
          else
            log_message (OperationException operation_name e);;
            when (attempt <? max_retries)
              (log_message RetryIn3;; time_sleep 3);;
            execute_request_loop url operation_name max_retries rest
      end
  end.

(** [execute_request(url, operation_name, max_retries=3)] *)
Definition execute_request (url : string) (operation_name : operation)
    (max_retries : Z) : M bool :=
  execute_request_loop url operation_name max_retries
    (Py.range 1 (max_retries + 1)).

(** [restart_openclash()].  No call in its body raises in this model, so
    the outer [except Exception] handler has nothing to catch. *)
Definition restart_openclash : M bool :=
  log_message RestartBegin;;
  log_message RestartStep1Stop;;
  stopped ← execute_request OPENCLASH_DOWN_URL StopService 3;
  if negb stopped then
    log_message RestartStopFailed;; mret false
  else
    log_message RestartWaitStopped;;
    time_sleep 5;;
    log_message RestartStep2Start;;
    started ← execute_request OPENCLASH_UP_URL StartService 3;
    if negb started then
      log_message RestartStartFailed;;
      log_message RestartStartAgain;;
      time_sleep 3;;
      started_again ← execute_request OPENCLASH_UP_URL StartServiceAgain 2;
      if negb started_again then
        log_message RestartStartAgainFailed;; mret false
      else
        log_message RestartWaitStarted;;
        time_sleep 10;;
        log_message RestartDone;;
        mret true
    else
      log_message RestartWaitStarted;;
      time_sleep 10;;
      log_message RestartDone;;
      mret true.

(** How [main] ends: by [sys.exit(code)], or by returning to the caller
    at the end of its body. *)
Inductive termination : Type :=
| SysExit (code : Z)
| Returned.

(** The loop [for attempt in range(1, MAX_RETRIES + 1)] of [main] over the
    attempts that are left; [rest_of_main] is the code after the loop. *)
Fixpoint main_probe_loop (attempts : list Z) (rest_of_main : M termination)
    : M termination :=
  match attempts with
  | [] => rest_of_main
  | attempt :: rest =>
      log_message (MainProbe attempt MAX_RETRIES);;
      ok ← check_google_connectivity;
      if ok : bool then
        log_message MainGoogleGood;;
        mret (SysExit 0)
      else
        when (attempt <? MAX_RETRIES)
          (log_message (MainRetryIn RETRY_INTERVAL);;
           time_sleep RETRY_INTERVAL);;
        main_probe_loop rest rest_of_main
  end.

(** The last line of [main]. *)
Definition main_finish : M termination :=
  log_message MainFinished;; mret Returned.

(** The code of [main] after the probe loop. *)
Definition main_diagnose : M termination :=
  log_message MainDiagnose;;
  openclash_running ← check_openclash_status;
  if negb openclash_running then
    log_message MainNotRunning;;
    started ← start_openclash;
    if started : bool then
      log_message MainStarted;;
      ok ← check_google_connectivity;
      if ok : bool then
        log_message MainRecoveredAfterStart;;
        mret (SysExit 0)
      else
        log_message MainStillDownAfterStart;;
        main_finish
    else
      log_message MainStartFailed;;
      main_finish
  else
    log_message MainRunning;;
    restarted ← restart_openclash;
    if restarted : bool then
      log_message MainRestarted;;
      time_sleep 60;;
      ok ← check_google_connectivity;
      if ok : bool then
        log_message MainRecoveredAfterRestart;;
        mret (SysExit 0)
      else
        log_message MainStillDownAfterRestart;;
        log_message MainFinalCheck;;
        final_status ← check_openclash_status;
        (if final_status : bool
         then (log_message MainServiceFine;;
               log_message MainHintProxyConfig;;
               log_message MainHintUpstream;;
               log_message MainHintBlocked;;
               log_message MainHintCheckLogs)
         else log_message MainServiceAbnormal);;
        main_finish
    else
      log_message MainRestartFailed;;
      main_finish.

(** [main()] *)
Definition main : M termination :=
  log_message MainBegin;;
  main_probe_loop (Py.range 1 (MAX_RETRIES + 1)) main_diagnose.

(** ** Reading a trace *)

(** The URLs requested, in order. *)
Fixpoint urls (t : list event) : list string :=
  match t with
  | [] => []
  | Get url _ :: t' => url :: urls t'
  | _ :: t' => urls t'
  end.

(** The trace without its log lines: requests and waits only. *)
Fixpoint effects (t : list event) : list event :=
  match t with
  | [] => []
  | Log _ :: t' => effects t'
  | e :: t' => e :: effects t'
  end.

(** An attempt succeeds when it gets a response with status 200. *)
Definition succeeded (o : outcome) : bool :=
  match o with
  | Returns r => status_code r =? 200
  | Raises _ => false
  end.

(** The outcomes of [k] consecutive requests to [url], the first of them
    being request number [n] of the run. *)
Definition outcomes (net : world) (n : nat) (url : string) (k : nat)
    : list outcome :=
  map (fun i => net (n + i)%nat url) (seq 0 k).

(** The line [check_google_connectivity] logs for an outcome. *)
Definition google_line (o : outcome) : message :=
  match o with
  | Returns r =>
      if status_code r =? 200 then GoogleOk
      else GoogleStatusCode (status_code r)
  | Raises e => GoogleUnreachable e
  end.

(** ** The retry schedule of a sub-operation, as the specification words it *)

(** The wait before the next attempt, by the kind of failure of the last
    one: 3 after a timeout, 5 after a connection error, 3 after any other
    request failure and after a response whose status is not 200. *)
Definition retry_wait (o : outcome) : Z :=
  match o with
  | Raises ConnectTimeout => 3
  | Raises ReadTimeout => 3
  | Raises ConnectionError => 5
  | Raises OtherRequestException => 3
  | Returns _ => 3
  end.

(** Requests and waits of a sub-operation whose attempts meet the outcomes
    [os], one per attempt allowed: attempts stop at the first success, a
    failed attempt is followed by its wait unless it was the last one
    allowed. *)
Fixpoint retry_effects (url : string) (os : list outcome) : list event :=
  match os with
  | [] => []
  | o :: os' =>
      Get url TIMEOUT ::
      (if succeeded o then []
       else match os' with
            | [] => []
            | _ :: _ => [Sleep (retry_wait o)]
            end ++ retry_effects url os')
  end.

(** The number of attempts made: up to and including the first success. *)
Fixpoint tries (os : list outcome) : nat :=
  match os with
  | [] => 0
  | o :: os' => S (if succeeded o then 0 else tries os')
  end.

(** The lines [execute_request] logs after a failed attempt: what went
    wrong, and the wait announced before the next attempt. *)
Definition failure_line (op : operation) (o : outcome) : message :=
  match o with
  | Returns r => OperationFailedCode op (status_code r)
  | Raises e =>
      if isinstance_Timeout e then OperationTimeout op
      else if isinstance_ConnectionError e then OperationConnectionError op
      else OperationException op e
  end.

Definition retry_line (o : outcome) : message :=
  match o with
  | Raises ConnectionError => RetryIn5
  | _ => RetryIn3
  end.

(** ** The restart sequence, as the specification words it *)

(** A sub-operation bounded to [bound] attempts on [url]: what it answers,
    the requests it uses up, and its requests and waits. *)
Definition sub_operation (url : string) (bound : Z) : M bool :=
  fun net n =>
    let os := outcomes net n url (Z.to_nat bound) in
    (existsb succeeded os, (n + tries os)%nat, retry_effects url os).

(** Stop; on failure give up; else wait 5 and start (3 attempts); on
    failure wait 3 and start once more (2 attempts); on failure give up;
    after a start that succeeded wait 10 and report success. *)
Definition restart_sequence : M bool :=
  stopped ← sub_operation OPENCLASH_DOWN_URL 3;
  if stopped : bool then
    time_sleep 5;;
    started ← sub_operation OPENCLASH_UP_URL 3;
    if started : bool then
      time_sleep 10;; mret true
    else
      time_sleep 3;;
      started_again ← sub_operation OPENCLASH_UP_URL 2;
      if started_again : bool then
        time_sleep 10;; mret true
      else
        mret false
  else
    mret false.

(** [m] does what [s] does, log lines apart. *)
Definition quietly {A} (m s : M A) : Prop :=
  ∀ net n,
    result (m net n) = result (s net n) ∧
    issued (m net n) = issued (s net n) ∧
    effects (trace (m net n)) = trace (s net n).

(** ** How a run of [main] may end *)

(** The answers the probes of a run got: for each request of the trace [t]
    that went to Google, whether it met a status 200.  [n] is the number of
    the first request of [t]. *)
Fixpoint probes (net : world) (n : nat) (t : list event) : list bool :=
  match t with
  | [] => []
  | Get url _ :: t' =>
      (if String.eqb url GOOGLE_URL then [succeeded (net n url)] else [])
      ++ probes net (S n) t'
  | _ :: t' => probes net n t'
  end.

(** A run that starts at request [n] ends in one of two ways.  Either by
    [sys.exit(0)]: its last probe succeeded, the ones before failed, and
    after that probe came two log lines only.  Or by a plain return: all
    its probes failed and the last thing done is the closing log line. *)
Definition ends_as_specified (net : world) (n : nat)
    (run : termination * nat * list event) : Prop :=
  (result run = SysExit 0 ∧
   (∃ k, probes net n (trace run) = replicate k false ++ [true]) ∧
   ∃ t m, trace run = t ++ [Get GOOGLE_URL TIMEOUT; Log GoogleOk; Log m]) ∨
  (result run = Returned ∧
   (∃ k, probes net n (trace run) = replicate k false) ∧
   ∃ t, trace run = t ++ [Log MainFinished]).

(** A computation that sends nothing to Google and counts its requests. *)
Definition probe_free {A} (m : M A) : Prop :=
  ∀ net n,
    issued (m net n) = (n + length (urls (trace (m net n))))%nat ∧
    GOOGLE_URL ∉ urls (trace (m net n)).

(** ** Measures of a trace *)

(** The time spent in [time.sleep], in seconds. *)
Fixpoint total_sleep (t : list event) : Z :=
  match t with
  | [] => 0
  | Sleep seconds :: t' => seconds + total_sleep t'
  | _ :: t' => total_sleep t'
  end.

(** The three probes at the start of a run that begins at request [n] all
    fail. *)
Definition initial_probes_fail (net : world) (n : nat) : Prop :=
  ∀ i, (i < 3)%nat → succeeded (net (n + i)%nat GOOGLE_URL) = false.

(** ** The run of [main], log lines apart *)

(** [m], started at request [n], answers [a], leaves the count of requests
    at [n'] and does the requests and waits [e]. *)
Definition runs_to {A} (m : M A) (net : world) (n : nat)
    (a : A) (n' : nat) (e : list event) : Prop :=
  result (m net n) = a ∧ issued (m net n) = n' ∧ effects (trace (m net n)) = e.

(** The three probes with their two waits of [RETRY_INTERVAL]. *)
Definition failed_probes : list event :=
  [Get GOOGLE_URL TIMEOUT; Sleep RETRY_INTERVAL;
   Get GOOGLE_URL TIMEOUT; Sleep RETRY_INTERVAL;
   Get GOOGLE_URL TIMEOUT].

(** What the code of [main] after the probe loop comes to, started at
    request [n]: how it ends, the count of requests, its requests and
    waits. *)
Definition diagnosis_outline (net : world) (n : nat)
    : termination * nat * list event :=
  if result (check_openclash_status net n) then
    let restart := restart_openclash net (S n) in
    if result restart then
      if succeeded (net (issued restart) GOOGLE_URL) then
        (SysExit 0, S (issued restart),
         Get OPENCLASH_STATUS_URL TIMEOUT :: effects (trace restart) ++
         [Sleep 60; Get GOOGLE_URL TIMEOUT])
      else
        (Returned, S (S (issued restart)),
         Get OPENCLASH_STATUS_URL TIMEOUT :: effects (trace restart) ++
         [Sleep 60; Get GOOGLE_URL TIMEOUT;
          Get OPENCLASH_STATUS_URL TIMEOUT])
    else
      (Returned, issued restart,
       Get OPENCLASH_STATUS_URL TIMEOUT :: effects (trace restart))
  else
    if succeeded (net (S n) OPENCLASH_UP_URL) then
      (if succeeded (net (S (S n)) GOOGLE_URL) then SysExit 0 else Returned,
       S (S (S n)),
       [Get OPENCLASH_STATUS_URL TIMEOUT; Get OPENCLASH_UP_URL TIMEOUT;
        Sleep 15; Get GOOGLE_URL TIMEOUT])
    else
      (Returned, S (S n),
       [Get OPENCLASH_STATUS_URL TIMEOUT; Get OPENCLASH_UP_URL TIMEOUT]).

(** What [main] comes to, started at request [n]. *)
Definition main_outline (net : world) (n : nat)
    : termination * nat * list event :=
  if succeeded (net n GOOGLE_URL) then
    (SysExit 0, S n, [Get GOOGLE_URL TIMEOUT])
  else if succeeded (net (S n) GOOGLE_URL) then
    (SysExit 0, S (S n),
     [Get GOOGLE_URL TIMEOUT; Sleep RETRY_INTERVAL; Get GOOGLE_URL TIMEOUT])
  else if succeeded (net (S (S n)) GOOGLE_URL) then
    (SysExit 0, S (S (S n)), failed_probes)
  else
    let d := diagnosis_outline net (S (S (S n))) in
    (result d, issued d, failed_probes ++ trace d).

(** ** Sample networks *)

(** The world whose network answers the [n]-th request of the run with the
    [n]-th outcome of [os], and with [default] once [os] is used up, and
    whose standard output has the default error handler. *)
Definition scripted (os : list outcome) (default : outcome) : world :=
  World (fun n _ => nth n os default) Py.Strict.

Definition ok : outcome := Returns (Response 200 None).

Definition body (code : Z) (v : Py.value) : outcome :=
  Returns (Response code (Some v)).

(** A run that takes as long as a run can: the probes fail, the service
    answers the status check, stop and the second start succeed at their
    last attempt after connection errors, and Google stays out of reach. *)
Definition slowest_run : world :=
  scripted
    [Raises ConnectionError; Raises ConnectionError; Raises ConnectionError;
     ok;
     Raises ConnectionError; Raises ConnectionError; ok;
     Raises ConnectionError; Raises ConnectionError; Raises ConnectionError;
     Raises ConnectionError; ok;
     Raises ConnectionError; ok]
    (Raises ConnectionError).

(** * Proofs *)

(** ** Running computations *)

Lemma run_bind {A B} (m : M A) (f : A → M B) net n :
  (m ≫= f) net n =
  (result (f (result (m net n)) net (issued (m net n))),
   issued (f (result (m net n)) net (issued (m net n))),
   trace (m net n) ++ trace (f (result (m net n)) net (issued (m net n)))).
Proof.
  unfold mbind, M_bind, result, issued, trace.
  destruct (m net n) as [[a n1] t1]; simpl.
  destruct (f a net n1) as [[b n2] t2]; reflexivity.
Qed.

Lemma result_run {A} (a : A) n t : result (a, n, t) = a.
Proof. reflexivity. Qed.

Lemma issued_run {A} (a : A) n t : issued (a, n, t) = n.
Proof. reflexivity. Qed.

Lemma trace_run {A} (a : A) n t : trace (a, n, t) = t.
Proof. reflexivity. Qed.

Lemma urls_app t1 t2 : urls (t1 ++ t2) = urls t1 ++ urls t2.
Proof.
  induction t1 as [|[url tmo|s|m] t1 IH]; simpl; rewrite ?IH; reflexivity.
Qed.

Lemma effects_app t1 t2 : effects (t1 ++ t2) = effects t1 ++ effects t2.
Proof.
  induction t1 as [|[url tmo|s|m] t1 IH]; simpl; rewrite ?IH; reflexivity.
Qed.

Lemma urls_effects t : urls (effects t) = urls t.
Proof.
  induction t as [|[url tmo|s|m] t IH]; simpl; rewrite ?IH; reflexivity.
Qed.

Lemma check_google_connectivity_run net n :
  check_google_connectivity net n =
  (succeeded (net n GOOGLE_URL), S n,
   [Get GOOGLE_URL TIMEOUT; Log (google_line (net n GOOGLE_URL))]).
Proof.
  unfold check_google_connectivity, mbind, M_bind, requests_get.
  destruct (net n GOOGLE_URL) as [r|e]; simpl; [|reflexivity].
  destruct (status_code r =? 200); reflexivity.
Qed.

(** ** The reachability prober *)


(** ** The status checker *)

Lemma scan_status_fields_issued d fields net k :
  issued (scan_status_fields d fields net k) = k.
Proof.
  induction fields as [|f fields IH]; cbn [scan_status_fields];
    [reflexivity|].
  destruct (d !! f) as [v|]; [|exact IH].
  destruct (Py.contains active_values v); [reflexivity|].
  unfold mbind, M_bind, log_message_showing.
  destruct (Py.printable (stdout_errors net) v); reflexivity.
Qed.

Lemma check_openclash_status_dict net n r d :
  net n OPENCLASH_STATUS_URL = Returns r →
  status_code r = 200 →
  json r = Some (Py.VDict d) →
  check_openclash_status net n =
  (match result (scan_status_fields d status_fields net (S n)) with
   | Some running => running
   | None => true
   end,
   S n,
   Get OPENCLASH_STATUS_URL TIMEOUT ::
   trace (scan_status_fields d status_fields net (S n)) ++
   match result (scan_status_fields d status_fields net (S n)) with
   | Some _ => []
   | None => [Log StatusResponded]
   end).
Proof.
  intros Hnet Hcode Hjson.
  unfold check_openclash_status. rewrite run_bind.
  unfold requests_get. cbn [result issued trace fst snd].
  rewrite Hnet, Hcode, Hjson. cbn [Z.eqb Pos.eqb].
  rewrite run_bind, scan_status_fields_issued.
  destruct (result (scan_status_fields d status_fields net (S n)));
    reflexivity.
Qed.

Lemma scan_status_fields_absent d pre rest :
  (∀ g, g ∈ pre → d !! g = None) →
  scan_status_fields d (pre ++ rest) = scan_status_fields d rest.
Proof.
  induction pre as [|g pre IH]; intros Habs; [reflexivity|].
  cbn [app scan_status_fields]. rewrite (Habs g) by apply list_elem_of_here.
  apply IH. intros g' Hg'. apply Habs. by apply list_elem_of_further.
Qed.

Lemma scan_status_fields_present d f v rest net n :
  d !! f = Some v →
  result (scan_status_fields d (f :: rest) net n) =
  if Py.contains active_values v then Some true
  else if Py.printable (stdout_errors net) v then Some false
  else None.
Proof.
  intros Hf. cbn [scan_status_fields]. rewrite Hf.
  destruct (Py.contains active_values v); [reflexivity|].
  unfold mbind, M_bind, log_message_showing.
  destruct (Py.printable (stdout_errors net) v); reflexivity.
Qed.

(** A float equals 1 when it is finite, positive, and its mantissa [m] and
    exponent [e] give [m * 2 ^ e = 1]. *)
Lemma float_eq_int_one x :
  Py.float_eq_int x 1 = true ↔
  ∃ m e, x = S754_finite false m e ∧
         ((0 ≤ e ∧ Z.pos m * 2 ^ e = 1) ∨ (e < 0 ∧ Z.pos m = 2 ^ (- e))).
Proof.
  split.
  - destruct x as [s|s| |s m e]; cbn [Py.float_eq_int]; try discriminate.
    destruct s.
    + destruct (Z.leb_spec 0 e) as [He|He]; intros H; apply Z.eqb_eq in H.
      * pose proof (Z.pow_nonneg 2 e ltac:(lia)). nia.
      * pose proof (Z.pow_pos_nonneg 2 (- e) ltac:(lia) ltac:(lia)). lia.
    + destruct (Z.leb_spec 0 e) as [He|He]; intros H; apply Z.eqb_eq in H;
        exists m, e; (split; [reflexivity|]); [left | right]; lia.
  - intros (m & e & -> & [[He H]|[He H]]); cbn [Py.float_eq_int].
    + destruct (Z.leb_spec 0 e); [|lia]. apply Z.eqb_eq, H.
    + destruct (Z.leb_spec 0 e); [lia|]. apply Z.eqb_eq. lia.
Qed.

(** Which decoded values are in the list of active values.  A float is in
    it when it equals 1, as [1.0 == 1] holds in Python. *)
Lemma contains_active_values v :
  Py.contains active_values v = true ↔
  v = Py.VBool true ∨ v = Py.VInt 1 ∨
  (∃ f, v = Py.VFloat f ∧ Py.float_eq_int f 1 = true) ∨
  v = Py.VStr "running" ∨ v = Py.VStr "active" ∨
  v = Py.VStr "enabled" ∨ v = Py.VStr "up".
Proof.
  unfold Py.contains, active_values. cbn [existsb].
  rewrite !orb_true_iff. split.
  - destruct v as [|b|z|f|s|l|d]; cbn [Py.eq_literal Py.int_of_bool];
      intros H; repeat destruct H as [H|H]; try discriminate H.
    + destruct b; [auto | discriminate H].
    + destruct b; [auto | discriminate H].
    + apply Z.eqb_eq in H. subst z. auto.
    + apply Z.eqb_eq in H. subst z. auto.
    + right; right; left. eauto.
    + right; right; left. eauto.
    + apply String.eqb_eq in H. subst s. auto.
    + apply String.eqb_eq in H. subst s. auto 6.
    + apply String.eqb_eq in H. subst s. auto 7.
    + apply String.eqb_eq in H. subst s. auto 8.
  - intros [->|[->|[(f & -> & Hf)|[->|[->|[->| ->]]]]]];
      cbn [Py.eq_literal Py.int_of_bool]; auto 8.
Qed.

(** C1: a field value that is not in the list of active values should
    give [False], and ["stopped"] does; but a [str] that standard output
    cannot encode gives [True].  With the body [{"running": "\ud800"}]
    and status 200, the line that shows the value raises
    [UnicodeEncodeError] inside the inner [try]; the handler written for
    bodies that are not JSON catches it, logs that the service responded
    and returns [True].  The same field holding ["running"] gives [True]
    on the intended path. *)
Theorem status_unprintable_value_reported_running :
  Py.contains active_values (Py.VStr Py.lone_surrogate) = false ∧
  check_openclash_status
    (scripted
       [body 200 (Py.VDict
          {[ "running"%string := Py.VStr Py.lone_surrogate ]})] ok) 0%nat
  = (true, 1%nat, [Get OPENCLASH_STATUS_URL TIMEOUT; Log StatusResponded]) ∧
  check_openclash_status
    (scripted
       [body 200 (Py.VDict {[ "running"%string := Py.VStr "stopped" ]})]
       ok) 0%nat
  = (false, 1%nat,
     [Get OPENCLASH_STATUS_URL TIMEOUT;
      Log (StatusNotRunning (Py.VStr "stopped"))]) ∧
  check_openclash_status
    (scripted
       [body 200 (Py.VDict {[ "running"%string := Py.VStr "running" ]})]
       ok) 0%nat
  = (true, 1%nat, [Get OPENCLASH_STATUS_URL TIMEOUT; Log StatusRunning]).
Proof.
  split; [reflexivity|]. split; [|split].
  - vm_compute. reflexivity.
  - vm_compute. reflexivity.
  - vm_compute. reflexivity.
Qed.

Lemma check_openclash_status_not_dict net n r :
  net n OPENCLASH_STATUS_URL = Returns r →
  status_code r = 200 →
  match json r with Some v => Py.is_dict v = false | None => True end →
  check_openclash_status net n =
  (true, S n, [Get OPENCLASH_STATUS_URL TIMEOUT; Log StatusResponded]).
Proof.
  intros Hnet Hcode Hjson.
  unfold check_openclash_status, mbind, M_bind, requests_get.
  rewrite Hnet, Hcode. cbn [Z.eqb Pos.eqb].
  destruct (json r) as [[]|]; try discriminate Hjson; reflexivity.
Qed.

(** C8: with a response of status 200, the body [{"running": true}] gives
    [True], [{"state": "stopped"}] gives [False], [{"foo": "bar"}], which
    has none of the candidate fields, gives [True], and so does a body
    that is not JSON. *)
Theorem status_examples net n r :
  net n OPENCLASH_STATUS_URL = Returns r →
  status_code r = 200 →
  (json r = Some (Py.VDict {[ "running"%string := Py.VBool true ]}) →
   result (check_openclash_status net n) = true) ∧
  (json r = Some (Py.VDict {[ "state"%string := Py.VStr "stopped" ]}) →
   result (check_openclash_status net n) = false) ∧
  (json r = Some (Py.VDict {[ "foo"%string := Py.VStr "bar" ]}) →
   result (check_openclash_status net n) = true) ∧
  (json r = None →
   result (check_openclash_status net n) = true).
Proof.
  intros Hnet Hcode. repeat split; intros Hjson.
  - rewrite (check_openclash_status_dict net n r _ Hnet Hcode Hjson).
    vm_compute. reflexivity.
  - rewrite (check_openclash_status_dict net n r _ Hnet Hcode Hjson).
    vm_compute. reflexivity.
  - rewrite (check_openclash_status_dict net n r _ Hnet Hcode Hjson).
    vm_compute. reflexivity.
  - rewrite (check_openclash_status_not_dict net n r Hnet Hcode).
    + reflexivity.
    + rewrite Hjson. exact I.
Qed.

(** C10: with a response of status 200 whose body is JSON but not an
    object (a list, a number, a string, ...), the status checker answers
    [True] and looks at no field: after the request it only logs that the
    service responded. *)
Theorem status_json_not_object net n r v :
  net n OPENCLASH_STATUS_URL = Returns r →
  status_code r = 200 →
  json r = Some v →
  Py.is_dict v = false →
  check_openclash_status net n =
  (true, S n, [Get OPENCLASH_STATUS_URL TIMEOUT; Log StatusResponded]).
Proof.
  intros Hnet Hcode Hjson Hv.
  apply (check_openclash_status_not_dict net n r Hnet Hcode).
  rewrite Hjson. exact Hv.
Qed.

(** ** The retried sub-operation *)

Lemma outcomes_S net n url k :
  outcomes net n url (S k) = net n url :: outcomes net (S n) url k.
Proof.
  unfold outcomes. cbn [seq map]. rewrite Nat.add_0_r. f_equal.
  rewrite <- seq_shift, map_map. apply map_ext. intros i.
  f_equal. lia.
Qed.

Lemma outcomes_length net n url k : length (outcomes net n url k) = k.
Proof. unfold outcomes. by rewrite length_map, length_seq. Qed.

Lemma range_S a k :
  map (fun i : nat => a + Z.of_nat i) (seq 0 (S k)) =
  a :: map (fun i : nat => (a + 1) + Z.of_nat i) (seq 0 k).
Proof.
  cbn [seq map]. rewrite Z.add_0_r. f_equal.
  rewrite <- seq_shift, map_map. apply map_ext. intros i. lia.
Qed.

Lemma execute_request_loop_cons url op max attempt rest net n :
  execute_request_loop url op max (attempt :: rest) net n =
  if succeeded (net n url) then
    (true, S n,
     [Log (Attempt op attempt max); Get url TIMEOUT; Log (OperationOk op)])
  else
    let run := execute_request_loop url op max rest net (S n) in
    (result run, issued run,
     [Log (Attempt op attempt max); Get url TIMEOUT;
      Log (failure_line op (net n url))] ++
     (if attempt <? max
      then [Log (retry_line (net n url)); Sleep (retry_wait (net n url))]
      else []) ++
     trace run).
Proof.
  cbn [execute_request_loop].
  unfold mbind, M_bind, log_message, requests_get, when, time_sleep,
    mret, M_ret, result, issued, trace.
  destruct (net n url) as [r|[]]; cbn [succeeded failure_line retry_line
    retry_wait isinstance_Timeout isinstance_ConnectionError];
    try destruct (status_code r =? 200); try reflexivity;
    destruct (attempt <? max);
    destruct (execute_request_loop url op max rest net (S n)) as [[b k] t];
    reflexivity.
Qed.

(** One lemma describes every run of the loop: its answer, the requests it
    uses up and its requests and waits, from the outcomes it meets. *)
Lemma execute_request_loop_run url op max net k :
  ∀ a n, (k = 0%nat ∨ a + Z.of_nat k = max + 1) →
  let run :=
    execute_request_loop url op max
      (map (fun i : nat => a + Z.of_nat i) (seq 0 k)) net n in
  result run = existsb succeeded (outcomes net n url k) ∧
  issued run = (n + tries (outcomes net n url k))%nat ∧
  effects (trace run) = retry_effects url (outcomes net n url k).
Proof.
  induction k as [|k IH]; intros a n Ha; cbv zeta.
  - cbn. rewrite Nat.add_0_r. repeat split.
  - rewrite range_S, outcomes_S, execute_request_loop_cons.
    cbn [existsb tries retry_effects].
    destruct (succeeded (net n url)).
    + cbn. repeat split. lia.
    + specialize (IH (a + 1) (S n) ltac:(lia)). cbv zeta in IH.
      assert (Ha' : a + Z.of_nat (S k) = max + 1) by lia.
      destruct IH as (IHr & IHi & IHe).
      set (run := execute_request_loop url op max _ net (S n)) in *.
      rewrite result_run, issued_run, trace_run. cbn [orb].
      split; [exact IHr|]. split; [lia|].
      rewrite !effects_app, IHe. cbn [effects app]. f_equal.
      pose proof (outcomes_length net (S n) url k) as Hl.
      destruct (outcomes net (S n) url k) as [|o os]; cbn [length] in Hl.
      * subst k. replace (a <? max) with false by lia. reflexivity.
      * replace (a <? max) with true by lia. reflexivity.
Qed.

Lemma execute_request_run url op max_retries net n :
  let os := outcomes net n url (Z.to_nat max_retries) in
  let run := execute_request url op max_retries net n in
  result run = existsb succeeded os ∧
  issued run = (n + tries os)%nat ∧
  effects (trace run) = retry_effects url os.
Proof.
  unfold execute_request, Py.range.
  replace (max_retries + 1 - 1) with max_retries by lia.
  apply execute_request_loop_run. lia.
Qed.

Lemma urls_retry_effects url os :
  urls (retry_effects url os) = replicate (tries os) url.
Proof.
  induction os as [|o os IH]; [reflexivity|].
  cbn [retry_effects tries urls]. destruct (succeeded o); [reflexivity|].
  rewrite urls_app, IH. cbn [replicate]. f_equal.
  destruct os; reflexivity.
Qed.

Lemma outcomes_all_fail net url k :
  ∀ n, (∀ i, (i < k)%nat → succeeded (net (n + i)%nat url) = false) →
  existsb succeeded (outcomes net n url k) = false ∧
  tries (outcomes net n url k) = k.
Proof.
  induction k as [|k IH]; intros n Hfail; [split; reflexivity|].
  rewrite outcomes_S. cbn [existsb tries].
  pose proof (Hfail 0%nat ltac:(lia)) as H0. rewrite Nat.add_0_r in H0.
  rewrite H0. cbn [orb].
  destruct (IH (S n)) as [IHe IHt].
  { intros i Hi. replace (S n + i)%nat with (n + S i)%nat by lia.
    apply Hfail. lia. }
  split; [exact IHe | by rewrite IHt].
Qed.

Lemma outcomes_first_success net url k :
  ∀ n j, (j < k)%nat →
  (∀ i, (i < j)%nat → succeeded (net (n + i)%nat url) = false) →
  succeeded (net (n + j)%nat url) = true →
  existsb succeeded (outcomes net n url k) = true ∧
  tries (outcomes net n url k) = S j.
Proof.
  induction k as [|k IH]; intros n j Hj Hfail Hok; [lia|].
  rewrite outcomes_S. cbn [existsb tries].
  destruct j as [|j].
  - rewrite Nat.add_0_r in Hok. rewrite Hok. split; reflexivity.
  - pose proof (Hfail 0%nat ltac:(lia)) as H0. rewrite Nat.add_0_r in H0.
    rewrite H0. cbn [orb].
    destruct (IH (S n) j) as [IHe IHt].
    + lia.
    + intros i Hi. replace (S n + i)%nat with (n + S i)%nat by lia.
      apply Hfail. lia.
    + replace (S n + j)%nat with (n + S j)%nat by lia. exact Hok.
    + split; [exact IHe | by rewrite IHt].
Qed.

(** C3: with a bound [N >= 1], a sub-operation all of whose attempts fail
    sends exactly [N] requests, all to its URL, and answers [False]; a
    sub-operation whose attempt number [j + 1] is the first to get a 200
    answers [True] after exactly [j + 1] requests, sending none after
    it. *)
Theorem execute_request_attempts url op N net n :
  1 ≤ N →
  let run := execute_request url op N net n in
  ((∀ i, (i < Z.to_nat N)%nat → succeeded (net (n + i)%nat url) = false) →
   result run = false ∧
   urls (trace run) = replicate (Z.to_nat N) url ∧
   issued run = (n + Z.to_nat N)%nat) ∧
  (∀ j, (j < Z.to_nat N)%nat →
   (∀ i, (i < j)%nat → succeeded (net (n + i)%nat url) = false) →
   succeeded (net (n + j)%nat url) = true →
   result run = true ∧
   urls (trace run) = replicate (S j) url ∧
   issued run = (n + S j)%nat).
Proof.
  intros HN run.
  destruct (execute_request_run url op N net n) as (Hr & Hi & He).
  fold run in Hr, Hi, He.
  assert (Hu : urls (trace run) =
               replicate (tries (outcomes net n url (Z.to_nat N))) url).
  { rewrite <- urls_effects, He. apply urls_retry_effects. }
  split.
  - intros Hfail.
    destruct (outcomes_all_fail net url (Z.to_nat N) n Hfail) as [He' Ht].
    rewrite Hr, Hu, Hi, He', Ht. repeat split.
  - intros j Hj Hfail Hok.
    destruct (outcomes_first_success net url (Z.to_nat N) n j Hj Hfail Hok)
      as [He' Ht].
    rewrite Hr, Hu, Hi, He', Ht. repeat split.
Qed.

Lemma last_retry_effects url os :
  os ≠ [] → last (retry_effects url os) = Some (Get url TIMEOUT).
Proof.
  induction os as [|o os IH]; intros Hne; [congruence|].
  cbn [retry_effects]. destruct (succeeded o); [reflexivity|].
  destruct os as [|o' os]; [reflexivity|].
  rewrite last_cons, last_app, IH by discriminate. reflexivity.
Qed.

Lemma retry_effects_wait url os :
  ∀ j o, os !! j = Some o → (S j < length os)%nat →
  (∀ i o', (i ≤ j)%nat → os !! i = Some o' → succeeded o' = false) →
  ∃ t1 t2,
    retry_effects url os =
      t1 ++ [Get url TIMEOUT; Sleep (retry_wait o); Get url TIMEOUT] ++ t2 ∧
    urls t1 = replicate j url.
Proof.
  induction os as [|o0 os IH]; intros j o Hj Hlen Hfail; [discriminate|].
  cbn [retry_effects].
  rewrite (Hfail 0%nat o0) by (reflexivity || lia).
  destruct os as [|o1 os]; [cbn in Hlen; lia|].
  destruct j as [|j].
  - injection Hj as <-. exists [].
    cbn [retry_effects app].
    eexists. split; reflexivity.
  - destruct (IH j o) as (t1 & t2 & Heq & Hu).
    + exact Hj.
    + cbn [length] in *. lia.
    + intros i o' Hi Ho'. apply (Hfail (S i) o'); [lia | exact Ho'].
    + exists (Get url TIMEOUT :: Sleep (retry_wait o0) :: t1), t2.
      rewrite Heq. split; [reflexivity|].
      cbn [urls replicate]. by rewrite Hu.
Qed.

Lemma outcomes_lookup net n url k j :
  (j < k)%nat → outcomes net n url k !! j = Some (net (n + j)%nat url).
Proof.
  intros Hj. unfold outcomes.
  rewrite list_lookup_fmap, lookup_seq_lt by exact Hj. reflexivity.
Qed.

(** C4: in a sub-operation, the wait before a retry is set by the failure
    of the attempt before it: 3 after a timeout (a connect timeout is
    handled as a timeout, the [Timeout] clause coming first), 5 after a
    connection error, 3 after any other request exception and after a
    response whose status is not 200.  Each failed attempt that is not the
    last one allowed is followed by that one wait and then by the next
    request.  The last thing a sub-operation does to the world is a
    request: no wait follows the attempt that uses up the bound, and when
    every attempt failed the answer is [False]. *)
Theorem execute_request_waits url op N net n :
  let run := execute_request url op N net n in
  (retry_wait (Raises ConnectTimeout) = 3 ∧
   retry_wait (Raises ReadTimeout) = 3 ∧
   retry_wait (Raises ConnectionError) = 5 ∧
   retry_wait (Raises OtherRequestException) = 3 ∧
   ∀ r, retry_wait (Returns r) = 3) ∧
  effects (trace run) =
    retry_effects url (outcomes net n url (Z.to_nat N)) ∧
  (∀ j, (S j < Z.to_nat N)%nat →
   (∀ i, (i ≤ j)%nat → succeeded (net (n + i)%nat url) = false) →
   ∃ t1 t2,
     effects (trace run) =
       t1 ++ [Get url TIMEOUT; Sleep (retry_wait (net (n + j)%nat url));
              Get url TIMEOUT] ++ t2 ∧
     urls t1 = replicate j url) ∧
  (1 ≤ N → last (effects (trace run)) = Some (Get url TIMEOUT)) ∧
  ((∀ i, (i < Z.to_nat N)%nat → succeeded (net (n + i)%nat url) = false) →
   result run = false).
Proof.
  intros run.
  destruct (execute_request_run url op N net n) as (Hr & Hi & He).
  fold run in Hr, Hi, He.
  split; [repeat split|]. split; [exact He|]. split; [|split].
  - intros j Hj Hfail. rewrite He.
    apply retry_effects_wait.
    + apply outcomes_lookup. lia.
    + rewrite outcomes_length. exact Hj.
    + intros i o' Hi' Ho'.
      rewrite outcomes_lookup in Ho' by lia. injection Ho' as <-.
      apply Hfail, Hi'.
  - intros HN. rewrite He. apply last_retry_effects.
    intros Hnil. apply (f_equal length) in Hnil.
    rewrite outcomes_length in Hnil. cbn in Hnil. lia.
  - intros Hfail. rewrite Hr.
    apply (outcomes_all_fail net url (Z.to_nat N) n Hfail).
Qed.

(** ** The restart operation *)

Lemma quietly_ret {A} (a : A) : quietly (mret a) (mret a).
Proof. intros net n. repeat split. Qed.

Lemma quietly_bind {A B} (m s : M A) (f g : A → M B) :
  quietly m s → (∀ a, quietly (f a) (g a)) → quietly (m ≫= f) (s ≫= g).
Proof.
  intros Hm Hf net n. rewrite !run_bind, !result_run, !issued_run, !trace_run.
  destruct (Hm net n) as (Hr & Hi & He). rewrite Hr, Hi.
  destruct (Hf (result (s net n)) net (issued (s net n))) as (Hr' & Hi' & He').
  rewrite effects_app, He, He'. repeat split; assumption.
Qed.

Lemma quietly_log {A} msg (k s : M A) :
  quietly k s → quietly (log_message msg;; k) s.
Proof.
  intros Hk net n. rewrite run_bind.
  unfold log_message at 1 2 3 4 5. rewrite !result_run, !issued_run, !trace_run.
  exact (Hk net n).
Qed.

Lemma quietly_sleep {A} seconds (k s : M A) :
  quietly k s → quietly (time_sleep seconds;; k) (time_sleep seconds;; s).
Proof.
  intros Hk. apply quietly_bind; [|intros _; exact Hk].
  intros net n. repeat split.
Qed.

Lemma quietly_execute_request url op bound :
  quietly (execute_request url op bound) (sub_operation url bound).
Proof. intros net n. apply execute_request_run. Qed.

Lemma quietly_restart_openclash : quietly restart_openclash restart_sequence.
Proof.
  unfold restart_openclash, restart_sequence.
  do 2 apply quietly_log.
  apply quietly_bind; [apply quietly_execute_request|].
  intros [|]; cbn [negb].
  - apply quietly_log, quietly_sleep, quietly_log.
    apply quietly_bind; [apply quietly_execute_request|].
    intros [|]; cbn [negb].
    + apply quietly_log, quietly_sleep, quietly_log, quietly_ret.
    + do 2 apply quietly_log. apply quietly_sleep.
      apply quietly_bind; [apply quietly_execute_request|].
      intros [|]; cbn [negb].
      * apply quietly_log, quietly_sleep, quietly_log, quietly_ret.
      * apply quietly_log, quietly_ret.
  - apply quietly_log, quietly_ret.
Qed.

Lemma restart_sequence_stop_failed net n :
  result (sub_operation OPENCLASH_DOWN_URL 3 net n) = false →
  restart_sequence net n =
  (false, issued (sub_operation OPENCLASH_DOWN_URL 3 net n),
   trace (sub_operation OPENCLASH_DOWN_URL 3 net n) ++ []).
Proof.
  intros Hstop. unfold restart_sequence. rewrite run_bind, Hstop.
  reflexivity.
Qed.

(** C2: log lines apart, [restart_openclash] is the restart sequence: the
    stop sub-operation (3 attempts); on its failure the answer [False];
    otherwise a wait of 5, the start sub-operation (3 attempts); on its
    failure a wait of 3 and one more start sub-operation (2 attempts), and
    [False] if that fails too; after a start that succeeded, at once or the
    second time, a wait of 10 and the answer [True].  When stop fails no
    request goes to the start URL. *)
Theorem restart_openclash_follows_sequence net n :
  let run := restart_openclash net n in
  (result run = result (restart_sequence net n) ∧
   issued run = issued (restart_sequence net n) ∧
   effects (trace run) = trace (restart_sequence net n)) ∧
  (result (execute_request OPENCLASH_DOWN_URL StopService 3 net n) = false →
   result run = false ∧ OPENCLASH_UP_URL ∉ urls (trace run)).
Proof.
  intros run. pose proof (quietly_restart_openclash net n) as Hq.
  fold run in Hq. split; [exact Hq|].
  destruct Hq as (Hr & _ & He). intros Hstop.
  destruct (quietly_execute_request OPENCLASH_DOWN_URL StopService 3 net n)
    as (Hr' & _ & _).
  rewrite Hr' in Hstop.
  rewrite <- urls_effects, He, Hr.
  rewrite (restart_sequence_stop_failed net n Hstop).
  rewrite result_run, trace_run, app_nil_r.
  split; [reflexivity|].
  unfold sub_operation. rewrite trace_run, urls_retry_effects.
  intros [Heq _]%elem_of_replicate. discriminate Heq.
Qed.

(** ** The orchestrator *)

Lemma run_log_eq {A} msg (k : M A) net n a n' t :
  k net n = (a, n', t) →
  (log_message msg;; k) net n = (a, n', Log msg :: t).
Proof. intros Hk. unfold mbind, M_bind, log_message. by rewrite Hk. Qed.

Lemma run_sleep_eq {A} seconds (k : M A) net n a n' t :
  k net n = (a, n', t) →
  (time_sleep seconds;; k) net n = (a, n', Sleep seconds :: t).
Proof. intros Hk. unfold mbind, M_bind, time_sleep. by rewrite Hk. Qed.

Lemma run_bind_eq {A B} (m : M A) (f : A → M B) net n a n1 t1 b n2 t2 :
  m net n = (a, n1, t1) →
  f a net n1 = (b, n2, t2) →
  (m ≫= f) net n = (b, n2, t1 ++ t2).
Proof. intros Hm Hf. unfold mbind, M_bind. by rewrite Hm, Hf. Qed.

Lemma check_google_connectivity_eq net n :
  check_google_connectivity net n =
  (result (check_google_connectivity net n), S n,
   trace (check_google_connectivity net n)).
Proof. rewrite !check_google_connectivity_run. reflexivity. Qed.

Lemma urls_check_google_connectivity net n :
  urls (trace (check_google_connectivity net n)) = [GOOGLE_URL].
Proof. rewrite check_google_connectivity_run. reflexivity. Qed.

Lemma urls_scan_status_fields d fields net k :
  urls (trace (scan_status_fields d fields net k)) = [].
Proof.
  induction fields as [|f fields IH]; cbn [scan_status_fields];
    [reflexivity|].
  destruct (d !! f) as [v|]; [|exact IH].
  destruct (Py.contains active_values v); [reflexivity|].
  unfold mbind, M_bind, log_message_showing.
  destruct (Py.printable (stdout_errors net) v); reflexivity.
Qed.

Lemma check_openclash_status_eq net n :
  check_openclash_status net n =
  (result (check_openclash_status net n), S n,
   trace (check_openclash_status net n)) ∧
  urls (trace (check_openclash_status net n)) = [OPENCLASH_STATUS_URL].
Proof.
  destruct (net n OPENCLASH_STATUS_URL) as [r|e] eqn:Hnet.
  - destruct (status_code r =? 200) eqn:Hcode.
    + apply Z.eqb_eq in Hcode.
      destruct (json r) as [v|] eqn:Hjson.
      * destruct (Py.is_dict v) eqn:Hv.
        -- destruct v; try discriminate Hv.
           rewrite (check_openclash_status_dict net n r d Hnet Hcode Hjson).
           rewrite result_run, trace_run. cbn [urls].
           rewrite urls_app, urls_scan_status_fields.
           destruct (result (scan_status_fields d status_fields net (S n)));
             split; reflexivity.
        -- rewrite (check_openclash_status_not_dict net n r Hnet Hcode).
           ++ split; reflexivity.
           ++ rewrite Hjson. exact Hv.
      * rewrite (check_openclash_status_not_dict net n r Hnet Hcode).
        -- split; reflexivity.
        -- rewrite Hjson. exact I.
    + unfold check_openclash_status, mbind, M_bind, requests_get.
      rewrite Hnet, Hcode. split; reflexivity.
  - unfold check_openclash_status, mbind, M_bind, requests_get.
    rewrite Hnet. destruct e; split; reflexivity.
Qed.

Lemma start_openclash_eq net n :
  start_openclash net n =
  (result (start_openclash net n), S n, trace (start_openclash net n)) ∧
  urls (trace (start_openclash net n)) = [OPENCLASH_UP_URL].
Proof.
  unfold start_openclash, mbind, M_bind, requests_get, log_message.
  destruct (net n OPENCLASH_UP_URL) as [r|e]; [|split; reflexivity].
  destruct (status_code r =? 200); split; reflexivity.
Qed.

Lemma restart_openclash_requests_stop net n :
  OPENCLASH_DOWN_URL ∈ urls (trace (restart_openclash net n)).
Proof.
  destruct (quietly_restart_openclash net n) as (_ & _ & He).
  rewrite <- urls_effects, He. unfold restart_sequence.
  rewrite run_bind, trace_run, urls_app. apply elem_of_app. left.
  unfold sub_operation. rewrite trace_run, urls_retry_effects.
  apply elem_of_replicate. split; [reflexivity|].
  change (Z.to_nat 3) with 3%nat. rewrite outcomes_S. discriminate.
Qed.

(** C6: when the first reachability probe succeeds, [main] ends by
    [sys.exit(0)] after that one probe: the only request of the run is the
    one to Google, so no status check, start or restart took place. *)
Theorem main_first_probe_succeeds net n :
  result (check_google_connectivity net n) = true →
  main net n =
    (SysExit 0, S n,
     [Log MainBegin; Log (MainProbe 1 3)] ++
     trace (check_google_connectivity net n) ++
     [Log MainGoogleGood]) ∧
  urls (trace (main net n)) = [GOOGLE_URL].
Proof.
  intros Hok.
  assert (Hrun : main net n =
    (SysExit 0, S n,
     [Log MainBegin; Log (MainProbe 1 3)] ++
     trace (check_google_connectivity net n) ++ [Log MainGoogleGood])).
  { unfold main. change (Py.range 1 (MAX_RETRIES + 1)) with [1; 2; 3].
    cbn [main_probe_loop app]. apply run_log_eq, run_log_eq.
    eapply run_bind_eq; [apply check_google_connectivity_eq|].
    rewrite Hok. reflexivity. }
  split; [exact Hrun|].
  rewrite Hrun, trace_run, !urls_app, urls_check_google_connectivity.
  reflexivity.
Qed.

(** C7: when the three initial probes fail, the status check answers
    not-running, the start succeeds and the probe after it succeeds,
    [main] makes exactly these calls in this order: three probes, one
    status check, one start, one probe; then it ends by [sys.exit(0)].
    Its six requests go to Google three times, the status URL, the start
    URL and Google; none goes to the stop URL, which every restart
    requests. *)
Theorem main_start_path net n :
  result (check_google_connectivity net n) = false →
  result (check_google_connectivity net (1 + n)%nat) = false →
  result (check_google_connectivity net (2 + n)%nat) = false →
  result (check_openclash_status net (3 + n)%nat) = false →
  result (start_openclash net (4 + n)%nat) = true →
  result (check_google_connectivity net (5 + n)%nat) = true →
  main net n =
    (SysExit 0, (6 + n)%nat,
     [Log MainBegin; Log (MainProbe 1 3)] ++
     trace (check_google_connectivity net n) ++
     [Log (MainRetryIn 30); Sleep 30; Log (MainProbe 2 3)] ++
     trace (check_google_connectivity net (1 + n)%nat) ++
     [Log (MainRetryIn 30); Sleep 30; Log (MainProbe 3 3)] ++
     trace (check_google_connectivity net (2 + n)%nat) ++
     [Log MainDiagnose] ++
     trace (check_openclash_status net (3 + n)%nat) ++
     [Log MainNotRunning] ++
     trace (start_openclash net (4 + n)%nat) ++
     [Log MainStarted] ++
     trace (check_google_connectivity net (5 + n)%nat) ++
     [Log MainRecoveredAfterStart]) ∧
  urls (trace (main net n)) =
    [GOOGLE_URL; GOOGLE_URL; GOOGLE_URL; OPENCLASH_STATUS_URL;
     OPENCLASH_UP_URL; GOOGLE_URL] ∧
  (OPENCLASH_DOWN_URL ∉ urls (trace (main net n))) ∧
  (∀ net' k, OPENCLASH_DOWN_URL ∈ urls (trace (restart_openclash net' k))).
Proof.
  intros H1 H2 H3 Hstatus Hstart Hok.
  assert (Hrun : main net n =
    (SysExit 0, (6 + n)%nat,
     [Log MainBegin; Log (MainProbe 1 3)] ++
     trace (check_google_connectivity net n) ++
     [Log (MainRetryIn 30); Sleep 30; Log (MainProbe 2 3)] ++
     trace (check_google_connectivity net (1 + n)%nat) ++
     [Log (MainRetryIn 30); Sleep 30; Log (MainProbe 3 3)] ++
     trace (check_google_connectivity net (2 + n)%nat) ++
     [Log MainDiagnose] ++
     trace (check_openclash_status net (3 + n)%nat) ++
     [Log MainNotRunning] ++
     trace (start_openclash net (4 + n)%nat) ++
     [Log MainStarted] ++
     trace (check_google_connectivity net (5 + n)%nat) ++
     [Log MainRecoveredAfterStart])).
  { unfold main. change (Py.range 1 (MAX_RETRIES + 1)) with [1; 2; 3].
    cbn [main_probe_loop app]. apply run_log_eq, run_log_eq.
    eapply run_bind_eq; [apply check_google_connectivity_eq|].
    rewrite H1. change (1 <? MAX_RETRIES) with true. cbn [when].
    eapply (run_bind_eq _ _ _ _ tt (S n)
              [Log (MainRetryIn 30); Sleep 30]); [reflexivity|].
    apply run_log_eq.
    eapply run_bind_eq; [apply check_google_connectivity_eq|].
    rewrite H2. change (2 <? MAX_RETRIES) with true. cbn [when].
    eapply (run_bind_eq _ _ _ _ tt (S (S n))
              [Log (MainRetryIn 30); Sleep 30]); [reflexivity|].
    apply run_log_eq.
    eapply run_bind_eq; [apply check_google_connectivity_eq|].
    rewrite H3. change (3 <? MAX_RETRIES) with false. cbn [when].
    eapply (run_bind_eq _ _ _ _ tt (S (S (S n))) []); [reflexivity|].
    unfold main_diagnose. apply run_log_eq.
    eapply run_bind_eq; [apply check_openclash_status_eq|].
    rewrite Hstatus. cbn [negb]. apply run_log_eq.
    eapply run_bind_eq; [apply start_openclash_eq|].
    rewrite Hstart. apply run_log_eq.
    eapply run_bind_eq; [apply check_google_connectivity_eq|].
    rewrite Hok. reflexivity. }
  split; [exact Hrun|].
  assert (Hurls : urls (trace (main net n)) =
    [GOOGLE_URL; GOOGLE_URL; GOOGLE_URL; OPENCLASH_STATUS_URL;
     OPENCLASH_UP_URL; GOOGLE_URL]).
  { rewrite Hrun, trace_run, !urls_app, !urls_check_google_connectivity.
    rewrite (proj2 (check_openclash_status_eq net (3 + n)%nat)).
    rewrite (proj2 (start_openclash_eq net (4 + n)%nat)). reflexivity. }
  split; [exact Hurls|]. split.
  - rewrite Hurls. intros Hin.
    repeat (apply elem_of_cons in Hin as [Hin|Hin]; [discriminate Hin|]).
    by apply not_elem_of_nil in Hin.
  - apply restart_openclash_requests_stop.
Qed.

Lemma probes_app net t1 t2 :
  ∀ n, probes net n (t1 ++ t2) =
       probes net n t1 ++ probes net (n + length (urls t1))%nat t2.
Proof.
  induction t1 as [|[url tmo|sec|msg] t1 IH]; intros n; cbn [app probes urls].
  - rewrite Nat.add_0_r. reflexivity.
  - rewrite IH, <- app_assoc. cbn [length].
    replace (S n + length (urls t1))%nat
      with (n + S (length (urls t1)))%nat by lia.
    reflexivity.
  - apply IH.
  - apply IH.
Qed.

Lemma probes_none net t :
  ∀ n, GOOGLE_URL ∉ urls t → probes net n t = [].
Proof.
  induction t as [|[url tmo|sec|msg] t IH]; intros n Hno; cbn [probes urls] in *.
  - reflexivity.
  - apply not_elem_of_cons in Hno as [Hne Hno].
    destruct (String.eqb_spec url GOOGLE_URL) as [->|_]; [congruence|].
    apply IH, Hno.
  - apply IH, Hno.
  - apply IH, Hno.
Qed.

Lemma probe_free_ret {A} (a : A) : probe_free (mret a).
Proof. intros net n. split; [cbn; lia | apply not_elem_of_nil]. Qed.

Lemma probe_free_log msg : probe_free (log_message msg).
Proof. intros net n. split; [cbn; lia | apply not_elem_of_nil]. Qed.

Lemma probe_free_sleep seconds : probe_free (time_sleep seconds).
Proof. intros net n. split; [cbn; lia | apply not_elem_of_nil]. Qed.

Lemma probe_free_bind {A B} (m : M A) (f : A → M B) :
  probe_free m → (∀ a, probe_free (f a)) → probe_free (m ≫= f).
Proof.
  intros Hm Hf net n. rewrite run_bind, issued_run, trace_run, urls_app.
  destruct (Hm net n) as [Hi Hno].
  destruct (Hf (result (m net n)) net (issued (m net n))) as [Hi' Hno'].
  split.
  - rewrite Hi', length_app. lia.
  - intros [H|H]%elem_of_app; auto.
Qed.

Lemma probe_free_check_openclash_status : probe_free check_openclash_status.
Proof.
  intros net n. destruct (check_openclash_status_eq net n) as [Hrun Hurls].
  rewrite Hurls. split; [rewrite Hrun, issued_run; cbn; lia|].
  intros H%list_elem_of_singleton. discriminate H.
Qed.

Lemma probe_free_start_openclash : probe_free start_openclash.
Proof.
  intros net n. destruct (start_openclash_eq net n) as [Hrun Hurls].
  rewrite Hurls. split; [rewrite Hrun, issued_run; cbn; lia|].
  intros H%list_elem_of_singleton. discriminate H.
Qed.

Lemma probe_free_execute_request url op bound :
  url ≠ GOOGLE_URL → probe_free (execute_request url op bound).
Proof.
  intros Hne net n.
  destruct (execute_request_run url op bound net n) as (_ & Hi & He).
  rewrite <- urls_effects, He, urls_retry_effects, length_replicate.
  split; [exact Hi|].
  intros [H _]%elem_of_replicate. congruence.
Qed.

Lemma probe_free_restart_openclash : probe_free restart_openclash.
Proof.
  unfold restart_openclash.
  repeat first
    [ apply probe_free_ret
    | apply probe_free_log
    | apply probe_free_sleep
    | apply probe_free_execute_request; discriminate
    | apply probe_free_bind
    | intros []; cbn [negb] ].
Qed.

Lemma ends_bind {A} (m : M A) (f : A → M termination) net n :
  probe_free m →
  (∀ a, ends_as_specified net (issued (m net n))
          (f a net (issued (m net n)))) →
  ends_as_specified net n ((m ≫= f) net n).
Proof.
  intros Hm Hf. rewrite run_bind.
  destruct (Hm net n) as [Hi Hno].
  assert (Hp : ∀ t, probes net n (trace (m net n) ++ t) =
                    probes net (issued (m net n)) t).
  { intros t. rewrite probes_app, (probes_none net _ n Hno), <- Hi.
    reflexivity. }
  destruct (Hf (result (m net n)))
    as [(Hr & Hk & t & msg & Ht) | (Hr & Hk & t & Ht)].
  - left. rewrite result_run, trace_run, Hp.
    split; [exact Hr|]. split; [exact Hk|].
    exists (trace (m net n) ++ t), msg. rewrite Ht, app_assoc. reflexivity.
  - right. rewrite result_run, trace_run, Hp.
    split; [exact Hr|]. split; [exact Hk|].
    exists (trace (m net n) ++ t). rewrite Ht, app_assoc. reflexivity.
Qed.

Lemma ends_probe msg (otherwise : M termination) net n :
  ends_as_specified net (S n) (otherwise net (S n)) →
  ends_as_specified net n
    ((ok ← check_google_connectivity;
      if ok : bool then log_message msg;; mret (SysExit 0)
      else otherwise) net n).
Proof.
  intros Helse. rewrite run_bind, check_google_connectivity_run.
  rewrite result_run, issued_run, trace_run.
  destruct (net n GOOGLE_URL) as [r|e] eqn:Hnet;
    cbn [succeeded google_line];
    [destruct (status_code r =? 200) eqn:Hcode|].
  - left. split; [reflexivity|]. split.
    + exists 0%nat. cbn. rewrite Hnet. cbn. rewrite Hcode. reflexivity.
    + exists [], msg. reflexivity.
  - destruct Helse as [(Hr & (k & Hk) & t & m' & Ht) | (Hr & (k & Hk) & t & Ht)].
    + left. rewrite result_run, trace_run. split; [exact Hr|]. split.
      * exists (S k). cbn. rewrite Hnet. cbn. rewrite Hcode, Hk. reflexivity.
      * exists (Get GOOGLE_URL TIMEOUT ::
                Log (GoogleStatusCode (status_code r)) :: t), m'.
        rewrite Ht. reflexivity.
    + right. rewrite result_run, trace_run. split; [exact Hr|]. split.
      * exists (S k). cbn. rewrite Hnet. cbn. rewrite Hcode, Hk. reflexivity.
      * exists (Get GOOGLE_URL TIMEOUT ::
                Log (GoogleStatusCode (status_code r)) :: t).
        rewrite Ht. reflexivity.
  - destruct Helse as [(Hr & (k & Hk) & t & m' & Ht) | (Hr & (k & Hk) & t & Ht)].
    + left. rewrite result_run, trace_run. split; [exact Hr|]. split.
      * exists (S k). cbn. rewrite Hnet. cbn. rewrite Hk. reflexivity.
      * exists (Get GOOGLE_URL TIMEOUT :: Log (GoogleUnreachable e) :: t), m'.
        rewrite Ht. reflexivity.
    + right. rewrite result_run, trace_run. split; [exact Hr|]. split.
      * exists (S k). cbn. rewrite Hnet. cbn. rewrite Hk. reflexivity.
      * exists (Get GOOGLE_URL TIMEOUT :: Log (GoogleUnreachable e) :: t).
        rewrite Ht. reflexivity.
Qed.

Lemma ends_finish net n : ends_as_specified net n (main_finish net n).
Proof.
  right. split; [reflexivity|]. split.
  - exists 0%nat. reflexivity.
  - exists []. reflexivity.
Qed.

Create HintDb probe_free.

#[local] Hint Resolve probe_free_ret probe_free_log probe_free_sleep
  probe_free_check_openclash_status probe_free_start_openclash
  probe_free_restart_openclash : probe_free.

(** One step along [main]: its last line, a probe, or a call that sends
    nothing to Google followed by the rest. *)
Ltac ends_step :=
  first
    [ apply ends_finish
    | apply ends_probe
    | apply ends_bind; [ solve [auto with probe_free] | intros [] ] ].

Lemma ends_diagnose net n : ends_as_specified net n (main_diagnose net n).
Proof.
  unfold main_diagnose. repeat (cbn [negb]; ends_step).
  apply ends_bind; [|intros []; ends_step].
  repeat first [ apply probe_free_log | apply probe_free_bind; [|intros _] ].
Qed.

Lemma ends_probe_loop attempts net :
  ∀ n, ends_as_specified net n
         (main_probe_loop attempts main_diagnose net n).
Proof.
  induction attempts as [|attempt rest IH]; intros n;
    cbn [main_probe_loop].
  - apply ends_diagnose.
  - ends_step. ends_step. apply ends_bind; [|intros []; apply IH].
    unfold when. destruct (attempt <? MAX_RETRIES).
    + apply probe_free_bind; [apply probe_free_log|].
      intros _. apply probe_free_sleep.
    + apply probe_free_ret.
Qed.

(** C9: however a run of [main] goes, it ends in one of two ways.  Either
    by [sys.exit(0)], and then the last probe of the run succeeded (all
    the probes before it having failed) and only log lines follow that
    probe.  Or, all the probes of the run having failed, by reaching the
    end of the procedure right after the closing log line, with no exit
    code set.  [sys.exit] is never called with a code other than 0. *)
Theorem main_exit_codes net n :
  let run := main net n in
  ((result run = SysExit 0 ∧
    (∃ k, probes net n (trace run) = replicate k false ++ [true]) ∧
    ∃ t m, trace run = t ++ [Get GOOGLE_URL TIMEOUT; Log GoogleOk; Log m]) ∨
   (result run = Returned ∧
    (∃ k, probes net n (trace run) = replicate k false) ∧
    ∃ t, trace run = t ++ [Log MainFinished])) ∧
  match result run with
  | SysExit code => code = 0
  | Returned => True
  end.
Proof.
  intros run.
  assert (Hend : ends_as_specified net n run).
  { unfold run, main.
    apply ends_bind; [apply probe_free_log | intros []].
    apply ends_probe_loop. }
  split; [exact Hend|].
  destruct Hend as [(Hr & _) | (Hr & _)]; rewrite Hr; reflexivity || exact I.
Qed.

(** ** The theorems at work on sample runs *)

(** Stop meets three connection errors: the restart fails and the start
    URL is never requested. *)
Lemma restart_openclash_follows_sequence_witness :
  result (restart_openclash (scripted [] (Raises ConnectionError)) 0%nat)
    = false ∧
  OPENCLASH_UP_URL ∉
    urls (trace (restart_openclash (scripted [] (Raises ConnectionError))
                   0%nat)).
Proof.
  pose proof (restart_openclash_follows_sequence
                (scripted [] (Raises ConnectionError)) 0%nat) as H.
  cbv zeta in H. destruct H as [_ H]. apply H.
  vm_compute. reflexivity.
Defined.

(** Bound 3: three failures use three requests; a success at the second
    attempt uses two. *)
Lemma execute_request_attempts_witness :
  (result (execute_request OPENCLASH_DOWN_URL StopService 3
             (scripted [] (Raises ReadTimeout)) 0%nat) = false ∧
   urls (trace (execute_request OPENCLASH_DOWN_URL StopService 3
                  (scripted [] (Raises ReadTimeout)) 0%nat))
     = replicate 3 OPENCLASH_DOWN_URL ∧
   issued (execute_request OPENCLASH_DOWN_URL StopService 3
             (scripted [] (Raises ReadTimeout)) 0%nat) = 3%nat) ∧
  (result (execute_request OPENCLASH_DOWN_URL StopService 3
             (scripted [Raises ReadTimeout; ok] (Raises ReadTimeout)) 0%nat)
     = true ∧
   urls (trace (execute_request OPENCLASH_DOWN_URL StopService 3
                  (scripted [Raises ReadTimeout; ok] (Raises ReadTimeout))
                  0%nat))
     = replicate 2 OPENCLASH_DOWN_URL ∧
   issued (execute_request OPENCLASH_DOWN_URL StopService 3
             (scripted [Raises ReadTimeout; ok] (Raises ReadTimeout)) 0%nat)
     = 2%nat).
Proof.
  split.
  - pose proof (execute_request_attempts OPENCLASH_DOWN_URL StopService 3
                  (scripted [] (Raises ReadTimeout)) 0%nat) as H.
    cbv zeta in H. destruct H as [H _]; [lia|]. apply H.
    intros i _. destruct i as [|[|[|i]]]; reflexivity.
  - pose proof (execute_request_attempts OPENCLASH_DOWN_URL StopService 3
                  (scripted [Raises ReadTimeout; ok] (Raises ReadTimeout))
                  0%nat) as H.
    cbv zeta in H. destruct H as [_ H]; [lia|]. apply (H 1%nat).
    + change (Z.to_nat 3) with 3%nat. lia.
    + intros i Hi. destruct i as [|i]; [reflexivity | lia].
    + reflexivity.
Defined.

(** A timeout, a connection error, then a status 500 with bound 3: waits
    of 3 and 5, and none after the third attempt. *)
Lemma execute_request_waits_witness :
  effects (trace (execute_request OPENCLASH_UP_URL StartService 3
     (scripted [Raises ReadTimeout; Raises ConnectionError;
                Returns (Response 500 None)] ok) 0%nat))
  = [Get OPENCLASH_UP_URL TIMEOUT; Sleep 3;
     Get OPENCLASH_UP_URL TIMEOUT; Sleep 5;
     Get OPENCLASH_UP_URL TIMEOUT] ∧
  result (execute_request OPENCLASH_UP_URL StartService 3
     (scripted [Raises ReadTimeout; Raises ConnectionError;
                Returns (Response 500 None)] ok) 0%nat) = false.
Proof.
  pose proof (execute_request_waits OPENCLASH_UP_URL StartService 3
     (scripted [Raises ReadTimeout; Raises ConnectionError;
                Returns (Response 500 None)] ok) 0%nat) as H.
  cbv zeta in H. destruct H as (_ & He & _ & _ & Hfail).
  split.
  - rewrite He. reflexivity.
  - apply Hfail. intros i Hi. change (Z.to_nat 3) with 3%nat in Hi.
    destruct i as [|[|[|i]]]; [reflexivity..|lia].
Defined.

(** Google answers 200 at once. *)
Lemma main_first_probe_succeeds_witness :
  main (scripted [] ok) 0%nat =
    (SysExit 0, 1%nat,
     [Log MainBegin; Log (MainProbe 1 3); Get GOOGLE_URL TIMEOUT;
      Log GoogleOk; Log MainGoogleGood]) ∧
  urls (trace (main (scripted [] ok) 0%nat)) = [GOOGLE_URL].
Proof.
  apply (main_first_probe_succeeds (scripted [] ok) 0%nat).
  reflexivity.
Defined.

(** Three probes time out, the status says stopped, the start and the
    probe after it get 200. *)
Lemma main_start_path_witness :
  result (main (scripted
    [Raises ConnectTimeout; Raises ConnectTimeout; Raises ConnectTimeout;
     body 200 (Py.VDict {[ "state"%string := Py.VStr "stopped" ]})]
    ok) 0%nat) = SysExit 0 ∧
  urls (trace (main (scripted
    [Raises ConnectTimeout; Raises ConnectTimeout; Raises ConnectTimeout;
     body 200 (Py.VDict {[ "state"%string := Py.VStr "stopped" ]})]
    ok) 0%nat)) =
  [GOOGLE_URL; GOOGLE_URL; GOOGLE_URL; OPENCLASH_STATUS_URL;
   OPENCLASH_UP_URL; GOOGLE_URL].
Proof.
  destruct (main_start_path (scripted
    [Raises ConnectTimeout; Raises ConnectTimeout; Raises ConnectTimeout;
     body 200 (Py.VDict {[ "state"%string := Py.VStr "stopped" ]})]
    ok) 0%nat) as (Hrun & Hurls & _).
  - reflexivity.
  - reflexivity.
  - reflexivity.
  - vm_compute. reflexivity.
  - reflexivity.
  - reflexivity.
  - split; [|exact Hurls]. rewrite Hrun. reflexivity.
Defined.

(** Four bodies, each with status 200: two with a candidate field, one
    without, one that is not JSON. *)
Lemma status_examples_witness :
  result (check_openclash_status
    (scripted [body 200 (Py.VDict {[ "running"%string := Py.VBool true ]})]
       ok) 0%nat) = true ∧
  result (check_openclash_status
    (scripted [body 200 (Py.VDict {[ "state"%string := Py.VStr "stopped" ]})]
       ok) 0%nat) = false ∧
  result (check_openclash_status
    (scripted [body 200 (Py.VDict {[ "foo"%string := Py.VStr "bar" ]})]
       ok) 0%nat) = true ∧
  result (check_openclash_status (scripted [ok] ok) 0%nat) = true.
Proof.
  split; [|split; [|split]].
  - destruct (status_examples
      (scripted [body 200 (Py.VDict {[ "running"%string := Py.VBool true ]})]
         ok) 0%nat
      (Response 200 (Some (Py.VDict {[ "running"%string := Py.VBool true ]})))
      eq_refl eq_refl) as (H & _).
    apply H. reflexivity.
  - destruct (status_examples
      (scripted
         [body 200 (Py.VDict {[ "state"%string := Py.VStr "stopped" ]})]
         ok) 0%nat
      (Response 200
         (Some (Py.VDict {[ "state"%string := Py.VStr "stopped" ]})))
      eq_refl eq_refl) as (_ & H & _).
    apply H. reflexivity.
  - destruct (status_examples
      (scripted [body 200 (Py.VDict {[ "foo"%string := Py.VStr "bar" ]})]
         ok) 0%nat
      (Response 200 (Some (Py.VDict {[ "foo"%string := Py.VStr "bar" ]})))
      eq_refl eq_refl) as (_ & _ & H & _).
    apply H. reflexivity.
  - destruct (status_examples (scripted [ok] ok) 0%nat (Response 200 None)
      eq_refl eq_refl) as (_ & _ & _ & H).
    apply H. reflexivity.
Defined.

(** The body [[1]], a JSON list. *)
Lemma status_json_not_object_witness :
  check_openclash_status
    (scripted [body 200 (Py.VList [Py.VInt 1])] ok) 0%nat =
  (true, 1%nat, [Get OPENCLASH_STATUS_URL TIMEOUT; Log StatusResponded]).
Proof.
  apply (status_json_not_object _ 0%nat
           (Response 200 (Some (Py.VList [Py.VInt 1])))
           (Py.VList [Py.VInt 1])); reflexivity.
Defined.

(** * Further properties of the script *)

(** ** The status checker on failures, on objects without a known field,
       and on the values of a field *)

Lemma effects_scan_status_fields d fields net k :
  effects (trace (scan_status_fields d fields net k)) = [].
Proof.
  induction fields as [|f fields IH]; cbn [scan_status_fields];
    [reflexivity|].
  destruct (d !! f) as [v|]; [|exact IH].
  destruct (Py.contains active_values v); [reflexivity|].
  unfold mbind, M_bind, log_message_showing.
  destruct (Py.printable (stdout_errors net) v); reflexivity.
Qed.

Lemma effects_check_openclash_status net n :
  effects (trace (check_openclash_status net n)) =
  [Get OPENCLASH_STATUS_URL TIMEOUT].
Proof.
  destruct (net n OPENCLASH_STATUS_URL) as [r|e] eqn:Hnet.
  - destruct (status_code r =? 200) eqn:Hcode.
    + apply Z.eqb_eq in Hcode.
      destruct (json r) as [v|] eqn:Hjson.
      * destruct (Py.is_dict v) eqn:Hv.
        -- destruct v; try discriminate Hv.
           rewrite (check_openclash_status_dict net n r d Hnet Hcode Hjson).
           rewrite trace_run. cbn [effects].
           rewrite effects_app, effects_scan_status_fields.
           destruct (result (scan_status_fields d status_fields net (S n)));
             reflexivity.
        -- rewrite (check_openclash_status_not_dict net n r Hnet Hcode);
             [reflexivity|]. rewrite Hjson. exact Hv.
      * rewrite (check_openclash_status_not_dict net n r Hnet Hcode);
          [reflexivity|]. rewrite Hjson. exact I.
    + unfold check_openclash_status, mbind, M_bind, requests_get.
      rewrite Hnet, Hcode. reflexivity.
  - unfold check_openclash_status, mbind, M_bind, requests_get.
    rewrite Hnet. destruct e; reflexivity.
Qed.

(** X1: unless its request gets a response with status 200, the status
    checker answers [False]: a response with another status, a timeout, a
    connection error and any other request exception all count as not
    running.  It answers after that single request, without a retry or a
    wait. *)
Theorem status_not_confirmed net n :
  succeeded (net n OPENCLASH_STATUS_URL) = false →
  result (check_openclash_status net n) = false ∧
  issued (check_openclash_status net n) = S n ∧
  effects (trace (check_openclash_status net n)) =
    [Get OPENCLASH_STATUS_URL TIMEOUT].
Proof.
  intros Hfail. split; [|split].
  - unfold check_openclash_status, mbind, M_bind, requests_get.
    destruct (net n OPENCLASH_STATUS_URL) as [r|e]; cbn [succeeded] in Hfail.
    + rewrite Hfail. reflexivity.
    + destruct e; reflexivity.
  - destruct (check_openclash_status_eq net n) as [Hrun _].
    rewrite Hrun. reflexivity.
  - apply effects_check_openclash_status.
Qed.

(** X2: on a response with status 200 whose body is a JSON object with
    none of the six candidate fields (the empty object included), the
    status checker assumes the service is running: it answers [True] and
    logs that this is a guess. *)
Theorem status_no_candidate_field net n r d :
  net n OPENCLASH_STATUS_URL = Returns r →
  status_code r = 200 →
  json r = Some (Py.VDict d) →
  (∀ f, f ∈ status_fields → d !! f = None) →
  check_openclash_status net n =
  (true, S n, [Get OPENCLASH_STATUS_URL TIMEOUT; Log StatusAssumedRunning]).
Proof.
  intros Hnet Hcode Hjson Habs.
  rewrite (check_openclash_status_dict net n r d Hnet Hcode Hjson).
  rewrite <- (app_nil_r status_fields).
  rewrite (scan_status_fields_absent d status_fields [] Habs).
  reflexivity.
Qed.

(** X3: the first candidate field present decides, and the checker
    answers [True] in two cases only.  The value is an active one: [True],
    the integer 1, a float equal to 1, or one of the strings running,
    active, enabled, up, spelt so.  Or the value is a [str] that standard
    output cannot encode (a lone surrogate its error handler does not let
    through), for then the line that shows it raises and the handler for
    bodies that are not JSON answers [True].  Any other value ([False],
    [None], another number, a string that prints, a list, an object) gives
    [False], whatever the later fields hold. *)
Theorem status_field_verdict net n r d pre f post v :
  net n OPENCLASH_STATUS_URL = Returns r →
  status_code r = 200 →
  json r = Some (Py.VDict d) →
  status_fields = pre ++ f :: post →
  (∀ g, g ∈ pre → d !! g = None) →
  d !! f = Some v →
  result (check_openclash_status net n) = true ↔
  v = Py.VBool true ∨ v = Py.VInt 1 ∨
  (∃ m e, v = Py.VFloat (S754_finite false m e) ∧
          ((0 ≤ e ∧ Z.pos m * 2 ^ e = 1) ∨ (e < 0 ∧ Z.pos m = 2 ^ (- e)))) ∨
  v = Py.VStr "running" ∨ v = Py.VStr "active" ∨
  v = Py.VStr "enabled" ∨ v = Py.VStr "up" ∨
  (∃ s, v = Py.VStr s ∧ Py.encodable (stdout_errors net) s = false).
Proof.
  intros Hnet Hcode Hjson Hsplit Habs Hf.
  rewrite (check_openclash_status_dict net n r d Hnet Hcode Hjson).
  rewrite result_run, Hsplit.
  rewrite (scan_status_fields_absent d pre (f :: post) Habs).
  rewrite (scan_status_fields_present d f v post net (S n) Hf).
  pose proof (contains_active_values v) as Hactive.
  destruct (Py.contains active_values v).
  - split; [intros _|reflexivity].
    destruct (proj1 Hactive eq_refl)
      as [H|[H|[(x & H & Hx)|[H|[H|[H|H]]]]]]; auto 8.
    apply float_eq_int_one in Hx as (m & e & -> & Hme). eauto 8.
  - assert (Hno : ¬ (v = Py.VBool true ∨ v = Py.VInt 1 ∨
              (∃ x, v = Py.VFloat x ∧ Py.float_eq_int x 1 = true) ∨
              v = Py.VStr "running" ∨ v = Py.VStr "active" ∨
              v = Py.VStr "enabled" ∨ v = Py.VStr "up")).
    { intros H. apply Hactive in H. discriminate H. }
    destruct (Py.printable (stdout_errors net) v) eqn:Hprint.
    + split; [discriminate|].
      intros [H|[H|[(m & e & H & Hme)|[H|[H|[H|[H|(s & H & Hs)]]]]]]];
        try (exfalso; apply Hno; auto 8; fail).
      * exfalso. apply Hno. right; right; left.
        exists (S754_finite false m e). split; [exact H|].
        apply float_eq_int_one. eauto.
      * subst v. cbn [Py.printable] in Hprint. congruence.
    + split; [intros _|reflexivity].
      destruct v as [|b|z|x|s|l|d']; try discriminate Hprint.
      do 7 right. exists s. split; [reflexivity | exact Hprint].
Qed.

(** ** The start operation *)

(** X4: [start_openclash] sends one request to the start URL and never
    retries.  It answers [True] exactly when the response has status 200,
    and only then waits, 15 seconds; on any other status or on a request
    exception it answers [False] at once. *)
Theorem start_openclash_once net n :
  let run := start_openclash net n in
  result run = succeeded (net n OPENCLASH_UP_URL) ∧
  issued run = S n ∧
  effects (trace run) =
    Get OPENCLASH_UP_URL TIMEOUT ::
    (if succeeded (net n OPENCLASH_UP_URL) then [Sleep 15] else []).
Proof.
  cbv zeta.
  unfold start_openclash, mbind, M_bind, requests_get, log_message,
    time_sleep.
  destruct (net n OPENCLASH_UP_URL) as [r|e]; cbn [succeeded];
    [|repeat split].
  destruct (status_code r =? 200); repeat split.
Qed.

(** ** The retried sub-operation with nothing to try *)

(** X5: with a bound of 0 or less, [execute_request] sends no request: it
    logs that the operation failed for good and answers [False]. *)
Theorem execute_request_no_attempt url op max_retries net n :
  max_retries ≤ 0 →
  execute_request url op max_retries net n =
  (false, n, [Log (OperationGaveUp op max_retries)]).
Proof.
  intros Hmax. unfold execute_request, Py.range.
  replace (Z.to_nat (max_retries + 1 - 1)) with 0%nat by lia.
  reflexivity.
Qed.

(** ** The restart operation: requests, verdict and time *)

Lemma run_eta {A} (r : A * nat * list event) :
  r = (result r, issued r, trace r).
Proof. destruct r as [[a n] t]; reflexivity. Qed.

Lemma tries_le_length os : (tries os ≤ length os)%nat.
Proof.
  induction os as [|o os IH]; cbn [tries length]; [lia|].
  destruct (succeeded o); lia.
Qed.

Lemma tries_outcomes_S net n url k :
  (1 ≤ tries (outcomes net n url (S k)) ≤ S k)%nat.
Proof.
  pose proof (tries_le_length (outcomes net n url (S k))) as Hle.
  rewrite outcomes_length in Hle. rewrite outcomes_S in *.
  cbn [tries] in *. lia.
Qed.

(** The attempt that ends a sub-operation is the one that succeeded, when
    one did, and a failed one otherwise. *)
Lemma last_try net url k :
  ∀ n, let os := outcomes net n url (S k) in
  succeeded (net (n + tries os - 1)%nat url) = existsb succeeded os.
Proof.
  induction k as [|k IH]; intros n; cbv zeta.
  - rewrite outcomes_S. cbn [outcomes seq map tries existsb].
    destruct (succeeded (net n url)) eqn:Hs; cbn [orb];
      replace (n + 1 - 1)%nat with n by lia; exact Hs.
  - rewrite outcomes_S. cbn [tries existsb].
    destruct (succeeded (net n url)) eqn:Hs; cbn [orb].
    + replace (n + 1 - 1)%nat with n by lia. exact Hs.
    + specialize (IH (S n)). cbv zeta in IH. rewrite <- IH.
      pose proof (tries_outcomes_S net (S n) url k).
      f_equal. f_equal. lia.
Qed.

Lemma restart_sequence_run net n :
  let stop := sub_operation OPENCLASH_DOWN_URL 3 net n in
  let start := sub_operation OPENCLASH_UP_URL 3 net (issued stop) in
  let again := sub_operation OPENCLASH_UP_URL 2 net (issued start) in
  restart_sequence net n =
  if result stop then
    if result start then
      (true, issued start,
       trace stop ++ Sleep 5 :: trace start ++ [Sleep 10])
    else
      (result again, issued again,
       trace stop ++ Sleep 5 :: trace start ++ Sleep 3 :: trace again ++
       (if result again then [Sleep 10] else []))
  else
    (false, issued stop, trace stop).
Proof.
  cbv zeta. unfold restart_sequence.
  destruct (result (sub_operation OPENCLASH_DOWN_URL 3 net n)) eqn:Hstop.
  - destruct (result (sub_operation OPENCLASH_UP_URL 3 net
                        (issued (sub_operation OPENCLASH_DOWN_URL 3 net n))))
      eqn:Hstart.
    + eapply run_bind_eq; [apply run_eta|]. rewrite Hstop.
      apply run_sleep_eq. eapply run_bind_eq; [apply run_eta|].
      rewrite Hstart. apply run_sleep_eq. reflexivity.
    + eapply run_bind_eq; [apply run_eta|]. rewrite Hstop.
      apply run_sleep_eq. eapply run_bind_eq; [apply run_eta|].
      rewrite Hstart. apply run_sleep_eq.
      eapply run_bind_eq; [apply run_eta|].
      destruct (result (sub_operation OPENCLASH_UP_URL 2 net _));
        reflexivity.
  - rewrite <- (app_nil_r (trace _)).
    eapply run_bind_eq; [apply run_eta|]. rewrite Hstop. reflexivity.
Qed.

Lemma total_sleep_app t1 t2 :
  total_sleep (t1 ++ t2) = total_sleep t1 + total_sleep t2.
Proof.
  induction t1 as [|[url tmo|sec|msg] t1 IH]; cbn [app total_sleep]; lia.
Qed.

Lemma total_sleep_effects t : total_sleep (effects t) = total_sleep t.
Proof.
  induction t as [|[url tmo|sec|msg] t IH]; cbn [effects total_sleep]; lia.
Qed.

Lemma retry_wait_bounds o : 3 ≤ retry_wait o ≤ 5.
Proof. destruct o as [r|[]]; cbn; lia. Qed.

Lemma total_sleep_retry_effects url os :
  0 ≤ total_sleep (retry_effects url os) ≤ 5 * Z.of_nat (pred (tries os)).
Proof.
  induction os as [|o os IH]; cbn [retry_effects tries total_sleep pred];
    [lia|].
  destruct (succeeded o); cbn [total_sleep]; [lia|].
  rewrite total_sleep_app. pose proof (retry_wait_bounds o).
  destruct os as [|o' os]; [cbn; lia|].
  cbn [total_sleep]. cbn [tries] in *.
  destruct (succeeded o'); cbn [pred] in *; lia.
Qed.

(** What the restart sequence needs to know of a sub-operation that is
    allowed at least one attempt. *)
Lemma sub_operation_facts url bound k net n :
  Z.to_nat bound = S k →
  let s := sub_operation url bound net n in
  ∃ a, (1 ≤ a ≤ S k)%nat ∧
       issued s = (n + a)%nat ∧
       urls (trace s) = replicate a url ∧
       succeeded (net (n + a - 1)%nat url) = result s ∧
       last (trace s) = Some (Get url TIMEOUT) ∧
       0 ≤ total_sleep (trace s) ≤ 5 * (Z.of_nat a - 1).
Proof.
  intros Hk. cbv zeta. unfold sub_operation. rewrite Hk.
  rewrite result_run, issued_run, trace_run.
  exists (tries (outcomes net n url (S k))).
  pose proof (tries_outcomes_S net n url k) as Ha.
  pose proof (total_sleep_retry_effects url (outcomes net n url (S k))).
  split; [exact Ha|]. split; [reflexivity|].
  split; [apply urls_retry_effects|].
  split; [apply (last_try net url k n)|].
  split; [|lia].
  apply last_retry_effects. rewrite outcomes_S. discriminate.
Qed.

Lemma restart_sequence_cost net n :
  let s := restart_sequence net n in
  (n + 1 ≤ issued s ≤ n + 8)%nat ∧ 0 ≤ total_sleep (trace s) ≤ 43.
Proof.
  cbv zeta. pose proof (restart_sequence_run net n) as Hrun.
  cbv zeta in Hrun.
  destruct (sub_operation_facts OPENCLASH_DOWN_URL 3 2 net n eq_refl)
    as (a & Ha & Hia & _ & _ & _ & Hsa).
  destruct (sub_operation_facts OPENCLASH_UP_URL 3 2 net
              (issued (sub_operation OPENCLASH_DOWN_URL 3 net n)) eq_refl)
    as (b & Hb & Hib & _ & _ & _ & Hsb).
  destruct (sub_operation_facts OPENCLASH_UP_URL 2 1 net
              (issued (sub_operation OPENCLASH_UP_URL 3 net
                 (issued (sub_operation OPENCLASH_DOWN_URL 3 net n))))
              eq_refl)
    as (c & Hc & Hic & _ & _ & _ & Hsc).
  cbv zeta in *. rewrite Hrun.
  destruct (result (sub_operation OPENCLASH_DOWN_URL 3 net n)).
  - destruct (result (sub_operation OPENCLASH_UP_URL 3 net _)).
    + rewrite issued_run, trace_run, total_sleep_app.
      cbn [total_sleep]. rewrite total_sleep_app. cbn [total_sleep]. lia.
    + rewrite issued_run, trace_run, total_sleep_app.
      cbn [total_sleep]. rewrite total_sleep_app. cbn [total_sleep].
      rewrite total_sleep_app.
      destruct (result (sub_operation OPENCLASH_UP_URL 2 net _));
        cbn [total_sleep]; lia.
  - rewrite issued_run, trace_run. lia.
Qed.

Lemma restart_sequence_requests net n :
  let s := restart_sequence net n in
  ∃ a b,
    urls (trace s) =
      replicate a OPENCLASH_DOWN_URL ++ replicate b OPENCLASH_UP_URL ∧
    issued s = (n + a + b)%nat ∧
    (1 ≤ a ≤ 3)%nat ∧ (b ≤ 5)%nat ∧
    (if result s then 1 ≤ b else True)%nat.
Proof.
  cbv zeta. pose proof (restart_sequence_run net n) as Hrun.
  cbv zeta in Hrun.
  destruct (sub_operation_facts OPENCLASH_DOWN_URL 3 2 net n eq_refl)
    as (a & Ha & Hia & Hua & _).
  destruct (sub_operation_facts OPENCLASH_UP_URL 3 2 net
              (issued (sub_operation OPENCLASH_DOWN_URL 3 net n)) eq_refl)
    as (b & Hb & Hib & Hub & _).
  destruct (sub_operation_facts OPENCLASH_UP_URL 2 1 net
              (issued (sub_operation OPENCLASH_UP_URL 3 net
                 (issued (sub_operation OPENCLASH_DOWN_URL 3 net n))))
              eq_refl)
    as (c & Hc & Hic & Huc & _).
  cbv zeta in *.
  set (stop := sub_operation OPENCLASH_DOWN_URL 3 net n) in *.
  set (start := sub_operation OPENCLASH_UP_URL 3 net (issued stop)) in *.
  set (again := sub_operation OPENCLASH_UP_URL 2 net (issued start)) in *.
  rewrite Hrun.
  destruct (result stop); [destruct (result start)|].
  - exists a, b. rewrite result_run, issued_run, trace_run.
    rewrite urls_app. cbn [urls]. rewrite urls_app, Hua, Hub.
    cbn [urls]. rewrite app_nil_r. repeat split; lia.
  - exists a, (b + c)%nat. rewrite result_run, issued_run, trace_run.
    rewrite urls_app. cbn [urls]. rewrite urls_app. cbn [urls].
    rewrite urls_app, Hua, Hub, Huc, replicate_add.
    destruct (result again); cbn [urls]; rewrite app_nil_r;
      repeat split; lia.
  - exists a, 0%nat. rewrite result_run, issued_run, trace_run, Hua.
    cbn [replicate]. rewrite app_nil_r. repeat split; lia.
Qed.

(** X6: a restart sends its requests to the stop URL first, one to three
    of them, then to the start URL, five at most, and to no other
    address; eight requests at most in all.  When it answers [True] at
    least one request went to the start URL. *)
Theorem restart_openclash_requests net n :
  let run := restart_openclash net n in
  ∃ a b,
    urls (trace run) =
      replicate a OPENCLASH_DOWN_URL ++ replicate b OPENCLASH_UP_URL ∧
    issued run = (n + a + b)%nat ∧
    (1 ≤ a ≤ 3)%nat ∧ (b ≤ 5)%nat ∧
    (if result run then 1 ≤ b else True)%nat.
Proof.
  intros run.
  destruct (quietly_restart_openclash net n) as (Hr & Hi & He).
  fold run in Hr, Hi, He.
  rewrite <- urls_effects, He, Hr, Hi.
  apply restart_sequence_requests.
Qed.

Lemma last_app_some {A} (l1 l2 : list A) x :
  last l2 = Some x → last (l1 ++ l2) = Some x.
Proof. intros H. rewrite last_app, H. reflexivity. Qed.

Lemma last_cons_some {A} (y : A) l x :
  last l = Some x → last (y :: l) = Some x.
Proof. intros H. rewrite last_cons, H. reflexivity. Qed.

Lemma restart_sequence_verdict net n :
  let s := restart_sequence net n in
  if result s then
    last (trace s) = Some (Sleep 10) ∧
    succeeded (net (issued s - 1)%nat OPENCLASH_UP_URL) = true ∧
    ∃ i, (n ≤ i < issued s - 1)%nat ∧
         succeeded (net i OPENCLASH_DOWN_URL) = true
  else
    ∃ url, last (trace s) = Some (Get url TIMEOUT) ∧
           succeeded (net (issued s - 1)%nat url) = false.
Proof.
  cbv zeta. pose proof (restart_sequence_run net n) as Hrun.
  cbv zeta in Hrun.
  destruct (sub_operation_facts OPENCLASH_DOWN_URL 3 2 net n eq_refl)
    as (a & Ha & Hia & _ & Hra & Hla & _).
  destruct (sub_operation_facts OPENCLASH_UP_URL 3 2 net
              (issued (sub_operation OPENCLASH_DOWN_URL 3 net n)) eq_refl)
    as (b & Hb & Hib & _ & Hrb & Hlb & _).
  destruct (sub_operation_facts OPENCLASH_UP_URL 2 1 net
              (issued (sub_operation OPENCLASH_UP_URL 3 net
                 (issued (sub_operation OPENCLASH_DOWN_URL 3 net n))))
              eq_refl)
    as (c & Hc & Hic & _ & Hrc & Hlc & _).
  cbv zeta in *.
  set (stop := sub_operation OPENCLASH_DOWN_URL 3 net n) in *.
  set (start := sub_operation OPENCLASH_UP_URL 3 net (issued stop)) in *.
  set (again := sub_operation OPENCLASH_UP_URL 2 net (issued start)) in *.
  rewrite Hrun.
  destruct (result stop); [destruct (result start)|].
  - rewrite result_run, issued_run, trace_run. split; [|split].
    + apply last_app_some, last_cons_some, last_snoc.
    + rewrite Hib. exact Hrb.
    + exists (n + a - 1)%nat. split; [lia | exact Hra].
  - rewrite result_run, issued_run, trace_run.
    destruct (result again).
    + split; [|split].
      * apply last_app_some, last_cons_some, last_app_some,
          last_cons_some, last_snoc.
      * rewrite Hic. exact Hrc.
      * exists (n + a - 1)%nat. split; [lia | exact Hra].
    + exists OPENCLASH_UP_URL. split.
      * rewrite app_nil_r.
        apply last_app_some, last_cons_some, last_app_some,
          last_cons_some, Hlc.
      * rewrite Hic. exact Hrc.
  - rewrite result_run, issued_run, trace_run.
    exists OPENCLASH_DOWN_URL. split; [exact Hla|].
    rewrite Hia. exact Hra.
Qed.

(** X7: a restart that answers [True] ends with its wait of 10 seconds;
    its last request went to the start URL and got a 200, and an earlier
    request to the stop URL got a 200.  A restart that answers [False]
    ends with a request that failed: it returns right after it, without a
    further wait. *)
Theorem restart_openclash_verdict net n :
  let run := restart_openclash net n in
  if result run then
    last (effects (trace run)) = Some (Sleep 10) ∧
    succeeded (net (issued run - 1)%nat OPENCLASH_UP_URL) = true ∧
    ∃ i, (n ≤ i < issued run - 1)%nat ∧
         succeeded (net i OPENCLASH_DOWN_URL) = true
  else
    ∃ url, last (effects (trace run)) = Some (Get url TIMEOUT) ∧
           succeeded (net (issued run - 1)%nat url) = false.
Proof.
  intros run.
  destruct (quietly_restart_openclash net n) as (Hr & Hi & He).
  fold run in Hr, Hi, He. rewrite He, Hr, Hi.
  apply restart_sequence_verdict.
Qed.

(** X8: the waits of a restart add up to 43 seconds at most. *)
Theorem restart_openclash_time net n :
  0 ≤ total_sleep (trace (restart_openclash net n)) ≤ 43.
Proof.
  destruct (quietly_restart_openclash net n) as (_ & _ & He).
  rewrite <- total_sleep_effects, He.
  apply restart_sequence_cost.
Qed.

(** ** The orchestrator, log lines apart *)

Lemma runs_ret {A} (a : A) net n : runs_to (mret a) net n a n [].
Proof. repeat split. Qed.

Lemma runs_log msg net n : runs_to (log_message msg) net n tt n [].
Proof. repeat split. Qed.

Lemma runs_sleep seconds net n :
  runs_to (time_sleep seconds) net n tt n [Sleep seconds].
Proof. repeat split. Qed.

Lemma runs_bind {A B} (m : M A) (f : A → M B) net n a n1 e1 b n2 e2 e :
  runs_to m net n a n1 e1 →
  runs_to (f a) net n1 b n2 e2 →
  e = e1 ++ e2 →
  runs_to (m ≫= f) net n b n2 e.
Proof.
  intros (Hr & Hi & He) Hf ->. unfold runs_to. rewrite run_bind.
  rewrite result_run, issued_run, trace_run, effects_app, Hr, Hi, He.
  destruct Hf as (Hr' & Hi' & He'). rewrite Hr', Hi', He'. repeat split.
Qed.

Lemma runs_check_google_connectivity net n :
  runs_to check_google_connectivity net n
    (succeeded (net n GOOGLE_URL)) (S n) [Get GOOGLE_URL TIMEOUT].
Proof.
  unfold runs_to. rewrite check_google_connectivity_run. repeat split.
Qed.

Lemma runs_check_openclash_status net n :
  runs_to check_openclash_status net n
    (result (check_openclash_status net n)) (S n)
    [Get OPENCLASH_STATUS_URL TIMEOUT].
Proof.
  split; [reflexivity|]. split.
  - destruct (check_openclash_status_eq net n) as [Hrun _].
    rewrite Hrun. reflexivity.
  - apply effects_check_openclash_status.
Qed.

Lemma runs_start_openclash net n :
  runs_to start_openclash net n
    (succeeded (net n OPENCLASH_UP_URL)) (S n)
    (Get OPENCLASH_UP_URL TIMEOUT ::
     if succeeded (net n OPENCLASH_UP_URL) then [Sleep 15] else []).
Proof.
  unfold runs_to, start_openclash, mbind, M_bind, requests_get, log_message,
    time_sleep.
  destruct (net n OPENCLASH_UP_URL) as [r|e]; cbn [succeeded];
    [|repeat split].
  destruct (status_code r =? 200); repeat split.
Qed.

Lemma runs_restart_openclash net n :
  runs_to restart_openclash net n
    (result (restart_openclash net n)) (issued (restart_openclash net n))
    (effects (trace (restart_openclash net n))).
Proof. repeat split. Qed.

(** Follows a computation call by call; the conditions met on the way are
    settled from the hypotheses. *)
Ltac settle :=
  repeat match goal with
         | H : ?x = _ |- context [?x] => rewrite H
         end;
  cbn [negb when];
  change (1 <? MAX_RETRIES) with true;
  change (2 <? MAX_RETRIES) with true;
  change (3 <? MAX_RETRIES) with false;
  cbv iota.

Ltac follow_by known :=
  first
    [ known
    | apply runs_ret
    | apply runs_log
    | apply runs_sleep
    | apply runs_check_google_connectivity
    | apply runs_check_openclash_status
    | apply runs_start_openclash
    | apply runs_restart_openclash
    | eapply runs_bind;
      [ follow_by known
      | settle; follow_by known
      | first [ reflexivity
              | settle; cbn [app]; rewrite ?app_nil_r; reflexivity ] ] ].

Ltac follow := follow_by fail.

Lemma runs_main_diagnose net n :
  runs_to main_diagnose net n
    (result (diagnosis_outline net n)) (issued (diagnosis_outline net n))
    (trace (diagnosis_outline net n)).
Proof.
  unfold diagnosis_outline, main_diagnose, main_finish.
  destruct (result (check_openclash_status net n)) eqn:Hstatus.
  - destruct (result (restart_openclash net (S n))) eqn:Hrestart.
    + destruct (succeeded (net (issued (restart_openclash net (S n)))
                             GOOGLE_URL)) eqn:Hprobe.
      * rewrite result_run, issued_run, trace_run. follow.
      * rewrite result_run, issued_run, trace_run.
        destruct (result (check_openclash_status net
                            (S (issued (restart_openclash net (S n))))))
          eqn:Hfinal; follow.
    + rewrite result_run, issued_run, trace_run. follow.
  - destruct (succeeded (net (S n) OPENCLASH_UP_URL)) eqn:Hstart.
    + destruct (succeeded (net (S (S n)) GOOGLE_URL)) eqn:Hprobe;
        rewrite result_run, issued_run, trace_run; follow.
    + rewrite result_run, issued_run, trace_run. follow.
Qed.

Lemma runs_main net n :
  runs_to main net n
    (result (main_outline net n)) (issued (main_outline net n))
    (trace (main_outline net n)).
Proof.
  unfold main_outline, main.
  change (Py.range 1 (MAX_RETRIES + 1)) with [1; 2; 3].
  cbn [main_probe_loop].
  destruct (succeeded (net n GOOGLE_URL)) eqn:H1;
    [rewrite result_run, issued_run, trace_run; follow|].
  destruct (succeeded (net (S n) GOOGLE_URL)) eqn:H2;
    [rewrite result_run, issued_run, trace_run; follow|].
  destruct (succeeded (net (S (S n)) GOOGLE_URL)) eqn:H3;
    [rewrite result_run, issued_run, trace_run; follow|].
  cbv zeta. rewrite result_run, issued_run, trace_run.
  follow_by ltac:(apply runs_main_diagnose).
Qed.

Lemma main_outline_failed_probes net n :
  initial_probes_fail net n →
  main_outline net n =
  (result (diagnosis_outline net (3 + n)%nat),
   issued (diagnosis_outline net (3 + n)%nat),
   failed_probes ++ trace (diagnosis_outline net (3 + n)%nat)).
Proof.
  intros Hfail. unfold main_outline.
  pose proof (Hfail 0%nat ltac:(lia)) as H0.
  pose proof (Hfail 1%nat ltac:(lia)) as H1.
  pose proof (Hfail 2%nat ltac:(lia)) as H2.
  rewrite Nat.add_0_r in H0.
  replace (n + 1)%nat with (S n) in H1 by lia.
  replace (n + 2)%nat with (S (S n)) in H2 by lia.
  rewrite H0, H1, H2. reflexivity.
Qed.

(** X9: [main] probes up to three times and stops at the first probe that
    succeeds: when probe number [j + 1] is the first to get a 200, the run
    ends by [sys.exit(0)] after [j + 1] requests to Google, with a wait of
    30 seconds after each failed one, and touches the service not at
    all. *)
Theorem main_stops_at_first_success net n j :
  (j < 3)%nat →
  (∀ i, (i < j)%nat → succeeded (net (n + i)%nat GOOGLE_URL) = false) →
  succeeded (net (n + j)%nat GOOGLE_URL) = true →
  result (main net n) = SysExit 0 ∧
  issued (main net n) = S (n + j) ∧
  effects (trace (main net n)) =
    concat (replicate j [Get GOOGLE_URL TIMEOUT; Sleep 30]) ++
    [Get GOOGLE_URL TIMEOUT].
Proof.
  intros Hj Hfail Hok.
  destruct (runs_main net n) as (Hr & Hi & He). rewrite Hr, Hi, He.
  unfold main_outline.
  destruct j as [|[|[|j]]]; [| | |lia].
  - rewrite Nat.add_0_r in Hok. rewrite Hok, result_run, issued_run, trace_run.
    repeat split; lia.
  - pose proof (Hfail 0%nat ltac:(lia)) as H0.
    rewrite Nat.add_0_r in H0.
    replace (n + 1)%nat with (S n) in * by lia.
    rewrite H0, Hok, result_run, issued_run, trace_run.
    repeat split; lia.
  - pose proof (Hfail 0%nat ltac:(lia)) as H0.
    pose proof (Hfail 1%nat ltac:(lia)) as H1.
    rewrite Nat.add_0_r in H0.
    replace (n + 1)%nat with (S n) in * by lia.
    replace (n + 2)%nat with (S (S n)) in * by lia.
    rewrite H0, H1, Hok, result_run, issued_run, trace_run.
    repeat split; lia.
Qed.

(** Brings a run of [main] whose three probes failed down to the outline
    of the diagnosis, conditions being settled from the hypotheses. *)
Ltac after_failed_probes Hfail net n :=
  let Hr := fresh "Hr" in
  let Hi := fresh "Hi" in
  let He := fresh "He" in
  destruct (runs_main net n) as (Hr & Hi & He);
  rewrite Hr, Hi, He, (main_outline_failed_probes net n Hfail);
  rewrite result_run, issued_run, trace_run;
  unfold diagnosis_outline; cbn [Nat.add] in *;
  repeat match goal with
         | H : ?x = _ |- context [?x] => rewrite H
         end;
  cbv zeta;
  repeat match goal with
         | H : ?x = _ |- context [?x] => rewrite H
         end;
  rewrite ?result_run, ?issued_run, ?trace_run.

(** X10: the probes having failed and the status check having answered
    not-running, a start request that fails ends the run: [main] probes
    no more, sends nothing else, and returns without an exit code after
    five requests. *)
Theorem main_start_fails net n :
  initial_probes_fail net n →
  result (check_openclash_status net (3 + n)%nat) = false →
  succeeded (net (4 + n)%nat OPENCLASH_UP_URL) = false →
  result (main net n) = Returned ∧
  issued (main net n) = (5 + n)%nat ∧
  effects (trace (main net n)) =
    failed_probes ++
    [Get OPENCLASH_STATUS_URL TIMEOUT; Get OPENCLASH_UP_URL TIMEOUT].
Proof.
  intros Hfail Hstatus Hstart.
  after_failed_probes Hfail net n. repeat split.
Qed.

(** X11: the probes having failed, the status check having answered
    not-running and the start having succeeded, a probe that still fails
    ends the run: no second start, no restart, no further probe; [main]
    returns without an exit code after six requests. *)
Theorem main_start_without_recovery net n :
  initial_probes_fail net n →
  result (check_openclash_status net (3 + n)%nat) = false →
  succeeded (net (4 + n)%nat OPENCLASH_UP_URL) = true →
  succeeded (net (5 + n)%nat GOOGLE_URL) = false →
  result (main net n) = Returned ∧
  issued (main net n) = (6 + n)%nat ∧
  effects (trace (main net n)) =
    failed_probes ++
    [Get OPENCLASH_STATUS_URL TIMEOUT; Get OPENCLASH_UP_URL TIMEOUT;
     Sleep 15; Get GOOGLE_URL TIMEOUT].
Proof.
  intros Hfail Hstatus Hstart Hprobe.
  after_failed_probes Hfail net n. repeat split.
Qed.

(** X12: the probes having failed and the status check having answered
    running, [main] restarts the service (it sends no plain start); after
    a restart that succeeded it waits 60 seconds and probes once, and a
    probe that succeeds ends the run by [sys.exit(0)]. *)
Theorem main_restart_recovers net n :
  initial_probes_fail net n →
  result (check_openclash_status net (3 + n)%nat) = true →
  result (restart_openclash net (4 + n)%nat) = true →
  succeeded (net (issued (restart_openclash net (4 + n)%nat)) GOOGLE_URL)
    = true →
  result (main net n) = SysExit 0 ∧
  issued (main net n) = S (issued (restart_openclash net (4 + n)%nat)) ∧
  effects (trace (main net n)) =
    failed_probes ++
    [Get OPENCLASH_STATUS_URL TIMEOUT] ++
    effects (trace (restart_openclash net (4 + n)%nat)) ++
    [Sleep 60; Get GOOGLE_URL TIMEOUT].
Proof.
  intros Hfail Hstatus Hrestart Hprobe.
  after_failed_probes Hfail net n. repeat split.
Qed.

(** X13: after a restart that succeeded and a probe that still fails,
    [main] checks the status once more and returns without an exit code;
    what that last status check answers changes neither how the run ends
    nor what it requests. *)
Theorem main_restart_without_recovery net n :
  initial_probes_fail net n →
  result (check_openclash_status net (3 + n)%nat) = true →
  result (restart_openclash net (4 + n)%nat) = true →
  succeeded (net (issued (restart_openclash net (4 + n)%nat)) GOOGLE_URL)
    = false →
  result (main net n) = Returned ∧
  issued (main net n) =
    S (S (issued (restart_openclash net (4 + n)%nat))) ∧
  effects (trace (main net n)) =
    failed_probes ++
    [Get OPENCLASH_STATUS_URL TIMEOUT] ++
    effects (trace (restart_openclash net (4 + n)%nat)) ++
    [Sleep 60; Get GOOGLE_URL TIMEOUT; Get OPENCLASH_STATUS_URL TIMEOUT].
Proof.
  intros Hfail Hstatus Hrestart Hprobe.
  after_failed_probes Hfail net n. repeat split.
Qed.

(** X14: the probes having failed and the status check having answered
    running, a restart that fails ends the run: no wait of 60 seconds, no
    further probe, no further status check; [main] returns without an
    exit code. *)
Theorem main_restart_fails net n :
  initial_probes_fail net n →
  result (check_openclash_status net (3 + n)%nat) = true →
  result (restart_openclash net (4 + n)%nat) = false →
  result (main net n) = Returned ∧
  issued (main net n) = issued (restart_openclash net (4 + n)%nat) ∧
  effects (trace (main net n)) =
    failed_probes ++
    [Get OPENCLASH_STATUS_URL TIMEOUT] ++
    effects (trace (restart_openclash net (4 + n)%nat)).
Proof.
  intros Hfail Hstatus Hrestart.
  after_failed_probes Hfail net n. repeat split.
Qed.

Lemma restart_openclash_cost net n :
  (n + 1 ≤ issued (restart_openclash net n) ≤ n + 8)%nat ∧
  0 ≤ total_sleep (effects (trace (restart_openclash net n))) ≤ 43.
Proof.
  destruct (quietly_restart_openclash net n) as (_ & Hi & He).
  rewrite Hi, He. apply restart_sequence_cost.
Qed.

(** X15: a run of [main] sends at least one request and 14 at most, and
    the waits it makes add up to 163 seconds at most; some run reaches
    both bounds. *)
Theorem main_bounds net n :
  ((n + 1 ≤ issued (main net n) ≤ n + 14)%nat ∧
   0 ≤ total_sleep (trace (main net n)) ≤ 163) ∧
  ∃ net', issued (main net' 0%nat) = 14%nat ∧
          total_sleep (trace (main net' 0%nat)) = 163.
Proof.
  split; [|exists slowest_run; split; vm_compute; reflexivity].
  destruct (runs_main net n) as (_ & Hi & He).
  rewrite <- total_sleep_effects, Hi, He.
  pose proof (restart_openclash_cost net (S (S (S (S n))))) as Hcost.
  unfold main_outline, diagnosis_outline, failed_probes, RETRY_INTERVAL.
  repeat match goal with
         | |- context [if ?c then _ else _] => destruct c
         end;
    cbv zeta;
    rewrite ?issued_run, ?trace_run;
    cbn [app total_sleep]; rewrite ?total_sleep_app; cbn [total_sleep];
    lia.
Qed.

(** ** The further properties at work on sample runs *)

(** The status request meets a connection error. *)
Lemma status_not_confirmed_witness :
  result (check_openclash_status (scripted [] (Raises ConnectionError)) 0%nat)
    = false ∧
  issued (check_openclash_status (scripted [] (Raises ConnectionError)) 0%nat)
    = 1%nat ∧
  effects (trace (check_openclash_status
                    (scripted [] (Raises ConnectionError)) 0%nat)) =
    [Get OPENCLASH_STATUS_URL TIMEOUT].
Proof.
  apply (status_not_confirmed (scripted [] (Raises ConnectionError)) 0%nat).
  reflexivity.
Defined.

(** The body is the empty object. *)
Lemma status_no_candidate_field_witness :
  check_openclash_status (scripted [body 200 (Py.VDict ∅)] ok) 0%nat =
  (true, 1%nat,
   [Get OPENCLASH_STATUS_URL TIMEOUT; Log StatusAssumedRunning]).
Proof.
  apply (status_no_candidate_field _ 0%nat
           (Response 200 (Some (Py.VDict ∅))) ∅);
    [reflexivity | reflexivity | reflexivity |].
  intros f _. apply lookup_empty.
Defined.

(** The field [running] holding the float 1.0, the float 2.0, the lone
    surrogate U+D800 before a strict standard output, the lone surrogate
    U+DC80 before one that escapes surrogates, and U+D800 again before one
    that never raises. *)
Lemma status_field_verdict_witness :
  result
    (check_openclash_status
       (scripted
          [body 200 (Py.VDict
             {[ "running"%string :=
                  Py.VFloat (S754_finite false 4503599627370496 (-52)) ]})]
          ok) 0%nat) = true ∧
  result
    (check_openclash_status
       (scripted
          [body 200 (Py.VDict
             {[ "running"%string :=
                  Py.VFloat (S754_finite false 4503599627370496 (-51)) ]})]
          ok) 0%nat) = false ∧
  result
    (check_openclash_status
       (scripted
          [body 200 (Py.VDict
             {[ "running"%string := Py.VStr Py.lone_surrogate ]})]
          ok) 0%nat) = true ∧
  result
    (check_openclash_status
       (World
          (fun _ _ =>
             body 200 (Py.VDict
               {[ "running"%string :=
                    Py.VStr (String (Ascii.ascii_of_N 237)
                               (String (Ascii.ascii_of_N 178)
                                  (String (Ascii.ascii_of_N 128)
                                     EmptyString))) ]}))
          Py.SurrogateEscape) 0%nat) = false ∧
  result
    (check_openclash_status
       (World
          (fun _ _ =>
             body 200 (Py.VDict
               {[ "running"%string := Py.VStr Py.lone_surrogate ]}))
          Py.Lenient) 0%nat) = false.
Proof.
  split; [|split; [|split; [|split]]].
  - apply (status_field_verdict _ 0%nat
             (Response 200 (Some (Py.VDict
                {[ "running"%string :=
                     Py.VFloat (S754_finite false 4503599627370496 (-52)) ]})))
             {[ "running"%string :=
                  Py.VFloat (S754_finite false 4503599627370496 (-52)) ]}
             [] "running"%string
             ["status"; "state"; "enabled"; "active"; "success"]%string
             (Py.VFloat (S754_finite false 4503599627370496 (-52))));
      [reflexivity | reflexivity | reflexivity | reflexivity
      | intros g Hg; by apply not_elem_of_nil in Hg
      | vm_compute; reflexivity |].
    right; right; left. do 2 eexists. split; [reflexivity|].
    right. split; [lia | reflexivity].
  - apply not_true_is_false.
    rewrite (status_field_verdict _ 0%nat
             (Response 200 (Some (Py.VDict
                {[ "running"%string :=
                     Py.VFloat (S754_finite false 4503599627370496 (-51)) ]})))
             {[ "running"%string :=
                  Py.VFloat (S754_finite false 4503599627370496 (-51)) ]}
             [] "running"%string
             ["status"; "state"; "enabled"; "active"; "success"]%string
             (Py.VFloat (S754_finite false 4503599627370496 (-51))));
      [| reflexivity | reflexivity | reflexivity | reflexivity
       | intros g Hg; by apply not_elem_of_nil in Hg
       | vm_compute; reflexivity ].
    intros [H|[H|[(m & e & H & Hme)|[H|[H|[H|[H|(s & H & _)]]]]]]];
      try discriminate H.
    injection H as <- <-. vm_compute in Hme.
    destruct Hme as [[He _]|[_ He]]; [apply He; reflexivity | discriminate He].
  - apply (status_field_verdict _ 0%nat
             (Response 200 (Some (Py.VDict
                {[ "running"%string := Py.VStr Py.lone_surrogate ]})))
             {[ "running"%string := Py.VStr Py.lone_surrogate ]}
             [] "running"%string
             ["status"; "state"; "enabled"; "active"; "success"]%string
             (Py.VStr Py.lone_surrogate));
      [reflexivity | reflexivity | reflexivity | reflexivity
      | intros g Hg; by apply not_elem_of_nil in Hg
      | vm_compute; reflexivity |].
    do 7 right. eexists. split; reflexivity.
  - apply not_true_is_false.
    rewrite (status_field_verdict _ 0%nat
             (Response 200 (Some (Py.VDict
                {[ "running"%string :=
                     Py.VStr (String (Ascii.ascii_of_N 237)
                                (String (Ascii.ascii_of_N 178)
                                   (String (Ascii.ascii_of_N 128)
                                      EmptyString))) ]})))
             {[ "running"%string :=
                  Py.VStr (String (Ascii.ascii_of_N 237)
                             (String (Ascii.ascii_of_N 178)
                                (String (Ascii.ascii_of_N 128)
                                   EmptyString))) ]}
             [] "running"%string
             ["status"; "state"; "enabled"; "active"; "success"]%string
             (Py.VStr (String (Ascii.ascii_of_N 237)
                         (String (Ascii.ascii_of_N 178)
                            (String (Ascii.ascii_of_N 128) EmptyString)))));
      [| reflexivity | reflexivity | reflexivity | reflexivity
       | intros g Hg; by apply not_elem_of_nil in Hg
       | vm_compute; reflexivity ].
    intros [H|[H|[(m & e & H & _)|[H|[H|[H|[H|(s & H & Hs)]]]]]]];
      try discriminate H;
      try (vm_compute in H; discriminate H).
    injection H as <-. vm_compute in Hs. discriminate Hs.
  - apply not_true_is_false.
    rewrite (status_field_verdict _ 0%nat
             (Response 200 (Some (Py.VDict
                {[ "running"%string := Py.VStr Py.lone_surrogate ]})))
             {[ "running"%string := Py.VStr Py.lone_surrogate ]}
             [] "running"%string
             ["status"; "state"; "enabled"; "active"; "success"]%string
             (Py.VStr Py.lone_surrogate));
      [| reflexivity | reflexivity | reflexivity | reflexivity
       | intros g Hg; by apply not_elem_of_nil in Hg
       | vm_compute; reflexivity ].
    intros [H|[H|[(m & e & H & _)|[H|[H|[H|[H|(s & H & Hs)]]]]]]];
      try discriminate H;
      try (vm_compute in H; discriminate H).
    injection H as <-. vm_compute in Hs. discriminate Hs.
Defined.

(** A bound of 0. *)
Lemma execute_request_no_attempt_witness :
  execute_request OPENCLASH_UP_URL StartService 0 (scripted [] ok) 0%nat =
  (false, 0%nat, [Log (OperationGaveUp StartService 0)]).
Proof.
  apply (execute_request_no_attempt OPENCLASH_UP_URL StartService 0
           (scripted [] ok) 0%nat).
  lia.
Defined.

(** The second probe is the first to succeed. *)
Lemma main_stops_at_first_success_witness :
  result (main (scripted [Raises ReadTimeout] ok) 0%nat) = SysExit 0 ∧
  issued (main (scripted [Raises ReadTimeout] ok) 0%nat) = 2%nat ∧
  effects (trace (main (scripted [Raises ReadTimeout] ok) 0%nat)) =
    [Get GOOGLE_URL TIMEOUT; Sleep 30; Get GOOGLE_URL TIMEOUT].
Proof.
  apply (main_stops_at_first_success (scripted [Raises ReadTimeout] ok)
           0%nat 1%nat).
  - lia.
  - intros i Hi. destruct i as [|i]; [reflexivity | lia].
  - reflexivity.
Defined.

(** The service does not answer at all. *)
Lemma main_start_fails_witness :
  result (main (scripted [] (Raises ConnectionError)) 0%nat) = Returned ∧
  issued (main (scripted [] (Raises ConnectionError)) 0%nat) = 5%nat ∧
  effects (trace (main (scripted [] (Raises ConnectionError)) 0%nat)) =
    failed_probes ++
    [Get OPENCLASH_STATUS_URL TIMEOUT; Get OPENCLASH_UP_URL TIMEOUT].
Proof.
  apply (main_start_fails (scripted [] (Raises ConnectionError)) 0%nat).
  - intros i Hi. destruct i as [|[|[|i]]]; [reflexivity..|lia].
  - reflexivity.
  - reflexivity.
Defined.

(** The start is accepted but Google stays out of reach. *)
Lemma main_start_without_recovery_witness :
  result (main (scripted
    [Raises ReadTimeout; Raises ReadTimeout; Raises ReadTimeout;
     Raises ConnectionError; ok] (Raises ReadTimeout)) 0%nat) = Returned ∧
  issued (main (scripted
    [Raises ReadTimeout; Raises ReadTimeout; Raises ReadTimeout;
     Raises ConnectionError; ok] (Raises ReadTimeout)) 0%nat) = 6%nat ∧
  effects (trace (main (scripted
    [Raises ReadTimeout; Raises ReadTimeout; Raises ReadTimeout;
     Raises ConnectionError; ok] (Raises ReadTimeout)) 0%nat)) =
    failed_probes ++
    [Get OPENCLASH_STATUS_URL TIMEOUT; Get OPENCLASH_UP_URL TIMEOUT;
     Sleep 15; Get GOOGLE_URL TIMEOUT].
Proof.
  apply (main_start_without_recovery (scripted
    [Raises ReadTimeout; Raises ReadTimeout; Raises ReadTimeout;
     Raises ConnectionError; ok] (Raises ReadTimeout)) 0%nat).
  - intros i Hi. destruct i as [|[|[|i]]]; [reflexivity..|lia].
  - reflexivity.
  - reflexivity.
  - reflexivity.
Defined.

(** The service is up and the restart brings Google back. *)
Lemma main_restart_recovers_witness :
  result (main (scripted
    [Raises ReadTimeout; Raises ReadTimeout; Raises ReadTimeout] ok) 0%nat)
    = SysExit 0 ∧
  issued (main (scripted
    [Raises ReadTimeout; Raises ReadTimeout; Raises ReadTimeout] ok) 0%nat)
    = 7%nat.
Proof.
  destruct (main_restart_recovers (scripted
    [Raises ReadTimeout; Raises ReadTimeout; Raises ReadTimeout] ok) 0%nat)
    as (Hr & Hi & _).
  - intros i Hi. destruct i as [|[|[|i]]]; [reflexivity..|lia].
  - reflexivity.
  - reflexivity.
  - reflexivity.
  - split; [exact Hr|]. rewrite Hi. reflexivity.
Defined.

(** The service is up, the restart goes through, Google stays out of
    reach. *)
Lemma main_restart_without_recovery_witness :
  result (main (scripted
    [Raises ReadTimeout; Raises ReadTimeout; Raises ReadTimeout;
     ok; ok; ok] (Raises ReadTimeout)) 0%nat) = Returned ∧
  issued (main (scripted
    [Raises ReadTimeout; Raises ReadTimeout; Raises ReadTimeout;
     ok; ok; ok] (Raises ReadTimeout)) 0%nat) = 8%nat.
Proof.
  destruct (main_restart_without_recovery (scripted
    [Raises ReadTimeout; Raises ReadTimeout; Raises ReadTimeout;
     ok; ok; ok] (Raises ReadTimeout)) 0%nat) as (Hr & Hi & _).
  - intros i Hi. destruct i as [|[|[|i]]]; [reflexivity..|lia].
  - reflexivity.
  - reflexivity.
  - reflexivity.
  - split; [exact Hr|]. rewrite Hi. reflexivity.
Defined.

(** The service answers the status check but refuses to stop. *)
Lemma main_restart_fails_witness :
  result (main (scripted
    [Raises ReadTimeout; Raises ReadTimeout; Raises ReadTimeout; ok]
    (Returns (Response 500 None))) 0%nat) = Returned ∧
  issued (main (scripted
    [Raises ReadTimeout; Raises ReadTimeout; Raises ReadTimeout; ok]
    (Returns (Response 500 None))) 0%nat) = 7%nat.
Proof.
  destruct (main_restart_fails (scripted
    [Raises ReadTimeout; Raises ReadTimeout; Raises ReadTimeout; ok]
    (Returns (Response 500 None))) 0%nat) as (Hr & Hi & _).
  - intros i Hi. destruct i as [|[|[|i]]]; [reflexivity..|lia].
  - reflexivity.
  - reflexivity.
  - split; [exact Hr|]. rewrite Hi. reflexivity.
Defined.
